(** * RunTable: the run-listing table of the dagit UI

    A shallow embedding of [RunTable] and [RunRow] (RunTable.tsx): the
    derivations a row performs on every render (full tag list, pin flags,
    backfill link, summary tags, re-execution flag), the pin toggle, the
    validator of the persisted pin preference, and the empty / populated
    switch of the table body.

    React nodes are modelled by the data that decides them; hooks are
    modelled by the values they hand to the component. *)

From Stdlib Require Import ZArith.
From stdpp Require Import base strings list gmap.

Set Warnings "-register-all".

Open Scope Z_scope.
Open Scope list_scope.

(** ** Values read from client-local storage

    What [JSON.parse] can produce, plus [undefined] for a key that is absent
    or whose text does not parse.  A number keeps its literal: nothing in
    this component computes with it. *)
Inductive JSON : Type :=
| JUndefined
| JNull
| JBool (b : bool)
| JNumber (literal : string)
| JString (s : string)
| JArray (items : list JSON)
| JObject (fields : list (string * JSON)).

(** [Array.isArray(value)] *)
Definition Array_isArray (value : JSON) : bool :=
  match value with
  | JArray _ => true
  | _ => false
  end.

(** The elements of a value that is an array. *)
Definition arrayItems (value : JSON) : list JSON :=
  match value with
  | JArray items => items
  | _ => []
  end.

(** [x === s] for a stored element [x] and a string [s]: strict equality
    never converts, so only a string element can be equal to a string. *)
Definition strictEqString (x : JSON) (s : string) : bool :=
  match x with
  | JString s' => String.eqb s' s
  | _ => false
  end.

(** [arr.indexOf(s)]: the first index holding a value strictly equal to
    [s], or -1. *)
Fixpoint indexOfFrom (from : Z) (arr : list JSON) (s : string) : Z :=
  match arr with
  | [] => -1
  | x :: rest => if strictEqString x s then from else indexOfFrom (from + 1) rest s
  end.

Definition indexOf (arr : list JSON) (s : string) : Z := indexOfFrom 0 arr s.

(** ** Entities *)

(** [RunTagsFragment]: a raw tag of a run. *)
Record PipelineTag : Type := mkTag {
  tag_key : string;
  tag_value : string
}.

(** An element of [allTagsWithPinned]: [{...tag, pinned}]. *)
Record PinnedTag : Type := mkPinnedTag {
  ptag_key : string;
  ptag_value : string;
  ptag_pinned : bool
}.

(** [TagType] of RunTag.tsx, the element type of the list handed to
    [RunTags]: [pinned] and [link] are optional properties. *)
Record TagType : Type := mkTagType {
  tt_key : string;
  tt_value : string;
  tt_pinned : option bool;
  tt_link : option string
}.

Record AssetKey : Type := mkAssetKey {
  asset_path : list string
}.

(** [RunTableRunFragment], with the fields the table and the row read.
    [run_assetSelection] is [None] for [null]. *)
Record RunTableRunFragment : Type := mkRun {
  run_id : string;
  run_mode : string;
  run_pipelineName : string;
  run_hasTerminatePermission : bool;
  run_hasDeletePermission : bool;
  run_assetSelection : option (list AssetKey);
  run_tags : list PipelineTag
}.

(** What [useRepositoryForRunWithoutSnapshot] resolves to:
    [repo.match.repository.pipelines] with each entry's [name] and [isJob]. *)
Record PipelineOrJob : Type := mkPipelineOrJob {
  pj_name : string;
  pj_isJob : bool
}.

Record RepoMatch : Type := mkRepoMatch {
  repo_name : string;
  repo_locationName : string;
  repo_pipelines : list PipelineOrJob
}.

(** [RunFilterToken] of RunsFilterInput.tsx. *)
Record RunFilterToken : Type := mkToken {
  token : string;
  token_value : string
}.

(** ** RunRow: per-render derivations *)

(** The [isJob] memo: [false] when the repository is not resolved, else
    [!!match?.isJob] for the first pipeline or job with the run's name. *)
Definition isJob (repo : option RepoMatch) (pipelineName : string) : bool :=
  match repo with
  | Some r =>
      match List.find (fun pipelineOrJob => String.eqb (pj_name pipelineOrJob) pipelineName)
                      (repo_pipelines r) with
      | Some m => pj_isJob m
      | None => false
      end
  | None => false
  end.

(** The validator handed to [useStateWithStorage('unpinned-tags', ...)]. *)
Definition unpinnedTagsValidator (value : JSON) : list JSON :=
  if Array_isArray value then arrayItems value else [].

(** Modelled from the spec: [useStateWithStorage]
    (hooks/useStateWithStorage.tsx is not among the sources).  The state it
    hands to the component is the validator's reading of the value stored
    under the key, so a stored value that is not a list reads as empty. *)
Definition useStateWithStorage {T : Type} (validate : JSON -> T) (stored : JSON) : T :=
  validate stored.

(** The condition guarding the push of the mode tag. *)
Definition addsModeTag (isJob : bool) (mode : string) : bool :=
  (isJob && negb (String.eqb mode "default")) || negb isJob.

(** [allTags]: a copy of [run.tags], then the push of the mode tag. *)
Definition allTags (run : RunTableRunFragment) (isJob : bool) : list PipelineTag :=
  let allTags := run_tags run in
  if addsModeTag isJob (run_mode run)
  then allTags ++ [mkTag "mode" (run_mode run)]
  else allTags.

(** [{...tag, pinned: unpinnedTags.indexOf(tag.key) === -1}] *)
Definition withPinned (unpinnedTags : list JSON) (tag : PipelineTag) : PinnedTag :=
  mkPinnedTag (tag_key tag) (tag_value tag) (Z.eqb (indexOf unpinnedTags (tag_key tag)) (-1)).

(** The [allTagsWithPinned] memo. *)
Definition allTagsWithPinned (run : RunTableRunFragment) (isJob : bool)
    (unpinnedTags : list JSON) : list PinnedTag :=
  List.map (withPinned unpinnedTags) (allTags run isJob).

(** [isPinned(key)]: a key is pinned unless the unpinned list holds it. *)
Definition isPinned (unpinnedTags : list JSON) (key : string) : bool :=
  Z.eqb (indexOf unpinnedTags key) (-1).

(** A derived tag without its pin flag. *)
Definition withoutPinned (tag : PinnedTag) : PipelineTag :=
  mkTag (ptag_key tag) (ptag_value tag).

(** A derived tag seen as a [TagType]: [pinned] is set, [link] is not. *)
Definition asTagType (tag : PinnedTag) : TagType :=
  mkTagType (ptag_key tag) (ptag_value tag) (Some (ptag_pinned tag)) None.

(** [{...targetBackfill, link}] *)
Definition withLink (tag : PinnedTag) (link : string) : TagType :=
  mkTagType (ptag_key tag) (ptag_value tag) (Some (ptag_pinned tag)) (Some link).

(** Truthiness of [run.assetSelection?.length]. *)
Definition assetSelectionLength (run : RunTableRunFragment) : bool :=
  match run_assetSelection run with
  | Some selection => negb (Nat.eqb (length selection) 0)
  | None => false
  end.

(** The updater that [onToggleTagPin] hands to [setUnpinnedTags]; its
    argument is [None] for a falsy state, which [unpinnedTags || []]
    replaces by the empty list. *)
Definition onToggleTagPin (tagKey : string) (unpinnedTags : option (list JSON)) : list JSON :=
  let unpinnedTags := default [] unpinnedTags in
  if negb (Z.eqb (indexOf unpinnedTags tagKey) (-1))
  then List.filter (fun key => negb (strictEqString key tagKey)) unpinnedTags
  else unpinnedTags ++ [JString tagKey].

(** ** The store of arrays

    The only writes the row performs on objects are [push]es on arrays, so
    arrays are the mutable cells of the model: a reference is an index into
    the list of arrays allocated so far, one list per element type.  A
    spread [[...a]], a [map] and an array literal allocate; [push] updates
    in place, and is seen through every alias of the reference. *)
Section Arrays.
Context {A : Type}.

Definition newArray (items : list A) (arrays : list (list A)) : nat * list (list A) :=
  (length arrays, arrays ++ [items]).

Definition readArray (ref : nat) (arrays : list (list A)) : list A :=
  default [] (arrays !! ref).

Definition pushArray (ref : nat) (item : A) (arrays : list (list A)) : list (list A) :=
  alter (fun items => items ++ [item]) ref arrays.
End Arrays.

Record Heap : Type := mkHeap {
  rawArrays : list (list PipelineTag);
  pinnedArrays : list (list PinnedTag);
  shownArrays : list (list TagType)
}.

(** A run as the component receives it: an object whose [tags] property
    refers to an array of the store. *)
Record RunObject : Type := mkRunObject {
  obj_id : string;
  obj_mode : string;
  obj_pipelineName : string;
  obj_hasTerminatePermission : bool;
  obj_hasDeletePermission : bool;
  obj_assetSelection : option (list AssetKey);
  obj_tags : nat
}.

(** The run entity a [RunObject] denotes in a store. *)
Definition deref (h : Heap) (run : RunObject) : RunTableRunFragment :=
  {| run_id := obj_id run;
     run_mode := obj_mode run;
     run_pipelineName := obj_pipelineName run;
     run_hasTerminatePermission := obj_hasTerminatePermission run;
     run_hasDeletePermission := obj_hasDeletePermission run;
     run_assetSelection := obj_assetSelection run;
     run_tags := readArray (obj_tags run) (rawArrays h) |}.

(** The [allTagsWithPinned] memo with its allocations and its [push]:
    returns the reference of the mapped array. *)
Definition allTagsWithPinned_st (run : RunObject) (isJob : bool) (unpinnedTags : list JSON)
    (h : Heap) : nat * Heap :=
  let '(allTags, raw) := newArray (readArray (obj_tags run) (rawArrays h)) (rawArrays h) in
  let raw :=
    if addsModeTag isJob (obj_mode run)
    then pushArray allTags (mkTag "mode" (obj_mode run)) raw
    else raw in
  let '(result, pinned) :=
    newArray (List.map (withPinned unpinnedTags) (readArray allTags raw)) (pinnedArrays h) in
  (result, mkHeap raw pinned (shownArrays h)).

(** ** RunTable *)

(** [RunsFilter], as the own properties present on the object. *)
Definition RunsFilter : Type := list (string * JSON).

Definition Object_keys (o : list (string * JSON)) : list string := List.map fst o.

(** The header checkbox and the props of a row that depend on the
    selection. *)
Record HeaderCheckbox : Type := mkHeaderCheckbox {
  header_indeterminate : bool;
  header_checked : bool
}.

Record RunRowProps : Type := mkRunRowProps {
  props_run : RunTableRunFragment;
  props_canTerminateOrDelete : bool;
  props_checked : bool
}.

(** What [content()] returns; [Node] is what the [emptyState] prop renders. *)
Inductive Content (Node : Type) : Type :=
| EmptyStateOverride (node : Node)
| NoMatchingRuns
| NoRunsFound
| RunsTable (header : option HeaderCheckbox) (rows : list RunRowProps).

Arguments EmptyStateOverride {Node} node.
Arguments NoMatchingRuns {Node}.
Arguments NoRunsFound {Node}.
Arguments RunsTable {Node} header rows.

Definition allIds (runs : list RunTableRunFragment) : list string := List.map run_id runs.

Definition canTerminateOrDeleteAny (runs : list RunTableRunFragment) : bool :=
  List.existsb (fun run => run_hasTerminatePermission run || run_hasDeletePermission run) runs.

(** [!!Object.keys(filter || {}).length] *)
Definition anyFilter (filter : option RunsFilter) : bool :=
  negb (Nat.eqb (length (Object_keys (default [] filter))) 0).

Definition content {Node : Type} (runs : list RunTableRunFragment) (filter : option RunsFilter)
    (emptyState : option (unit -> Node)) (checkedIds : gset string) : Content Node :=
  if Nat.eqb (length runs) 0 then
    let anyFilter := anyFilter filter in
    match emptyState with
    | Some emptyState => EmptyStateOverride (emptyState tt)
    | None => if anyFilter then NoMatchingRuns else NoRunsFound
    end
  else
    RunsTable
      (if canTerminateOrDeleteAny runs
       then Some {| header_indeterminate :=
                      Nat.ltb 0 (size checkedIds) && negb (Nat.eqb (size checkedIds) (length runs));
                    header_checked := Nat.eqb (size checkedIds) (length runs) |}
       else None)
      (List.map (fun run =>
                   {| props_run := run;
                      props_canTerminateOrDelete :=
                        run_hasTerminatePermission run || run_hasDeletePermission run;
                      props_checked := bool_decide (run_id run ∈ checkedIds) |}) runs).

(** Modelled from the spec: the selection store [useSelectionReducer]
    (hooks/useSelectionReducer.tsx is not among the sources).  It holds the
    set of checked ids of the rendered list; [toggleAll(true)] checks every
    id currently in the list and [toggleAll(false)] clears all. *)
Definition onToggleAll (allIds : list string) (checked : bool) (checkedIds : gset string)
    : gset string :=
  if checked then list_to_set allIds else ∅.

(** The header checkbox's [onChange] with the target's [checked], and the
    [clearSelection] of the bulk actions menu. *)
Definition headerCheckboxChange (runs : list RunTableRunFragment) (checked : bool)
    (checkedIds : gset string) : gset string :=
  onToggleAll (allIds runs) checked checkedIds.

Definition clearSelection (runs : list RunTableRunFragment) (checkedIds : gset string)
    : gset string :=
  onToggleAll (allIds runs) false checkedIds.

Section RunRow.

(** The members of the [DagsterTag] enum (RunTag.tsx) the row reads, and
    [runsPathWithFilters] (RunsFilterInput.tsx). *)
Variable DagsterTag_Backfill : string.
Variable DagsterTag_ParentRunId : string.
Variable runsPathWithFilters : list RunFilterToken -> string.

Definition isReexecution (run : RunTableRunFragment) : bool :=
  List.existsb (fun tag => String.eqb (tag_key tag) DagsterTag_ParentRunId) (run_tags run).

Definition targetBackfill (allTagsWithPinned : list PinnedTag) : option PinnedTag :=
  List.find (fun tag => String.eqb (ptag_key tag) DagsterTag_Backfill) allTagsWithPinned.

(** The link of the backfill tag. *)
Definition backfillLink (run : RunTableRunFragment) (targetBackfill : PinnedTag) : string :=
  if assetSelectionLength run
  then "/overview/backfills/" +:+ ptag_value targetBackfill
  else runsPathWithFilters
         [mkToken "tag" (DagsterTag_Backfill +:+ "=" +:+ ptag_value targetBackfill)].

(** One turn of [allTagsWithPinned.forEach] in [tagsToShow]. *)
Definition showStep (tagKeys : gset string) (unpinnedTags : list JSON)
    (tags : list TagType) (tag : PinnedTag) : list TagType :=
  if bool_decide (ptag_key tag ∈ tagKeys) then tags
  else if Z.eqb (indexOf unpinnedTags (ptag_key tag)) (-1) then tags ++ [asTagType tag]
  else tags.

(** The [tagsToShow] memo. *)
Definition tagsToShow (run : RunTableRunFragment) (targetBackfill : option PinnedTag)
    (allTagsWithPinned : list PinnedTag) (unpinnedTags : list JSON) : list TagType :=
  let '(tagKeys, tags) :=
    match targetBackfill with
    | Some tb =>
        if ptag_pinned tb
        then (({[ DagsterTag_Backfill ]} : gset string), [withLink tb (backfillLink run tb)])
        else (∅, [])
    | None => (∅, [])
    end in
  List.fold_left (showStep tagKeys unpinnedTags) allTagsWithPinned tags.

(** What a row renders from its derivations: the "Re-execution" tag, the
    summary [RunTags] (absent when the list is empty), the "View all n
    tags" button with its count, and the tags of the dialog.  [repo] is
    what [useRepositoryForRunWithoutSnapshot] resolved, [stored] the value
    under 'unpinned-tags'. *)
Record RunRowView : Type := mkRunRowView {
  view_isJob : bool;
  view_reexecutionTag : bool;
  view_summaryTags : option (list TagType);
  view_viewAllButton : option nat;
  view_dialogTags : list TagType
}.

Definition RunRow (run : RunTableRunFragment) (repo : option RepoMatch)
    (stored : JSON) : RunRowView :=
  let isJob := isJob repo (run_pipelineName run) in
  let unpinnedTags := useStateWithStorage unpinnedTagsValidator stored in
  let allTagsWithPinned := allTagsWithPinned run isJob unpinnedTags in
  let targetBackfill := targetBackfill allTagsWithPinned in
  let tagsToShow := tagsToShow run targetBackfill allTagsWithPinned unpinnedTags in
  {| view_isJob := isJob;
     view_reexecutionTag := isReexecution run;
     view_summaryTags :=
       if negb (Nat.eqb (length tagsToShow) 0) then Some tagsToShow else None;
     view_viewAllButton :=
       if Nat.ltb (length tagsToShow) (length allTagsWithPinned)
       then Some (length allTagsWithPinned) else None;
     view_dialogTags := List.map asTagType allTagsWithPinned |}.

(** One turn of the [forEach] on the store: [tags.push(tag)] where
    [showStep] appends. *)
Definition showStep_st (tagKeys : gset string) (unpinnedTags : list JSON) (tags : nat)
    (shown : list (list TagType)) (tag : PinnedTag) : list (list TagType) :=
  if bool_decide (ptag_key tag ∈ tagKeys) then shown
  else if Z.eqb (indexOf unpinnedTags (ptag_key tag)) (-1)
       then pushArray tags (asTagType tag) shown
  else shown.

(** The [tagsToShow] memo on the store: [tags] is a fresh array, filled
    by [push]; [allTagsWithPinned] is read through its reference. *)
Definition tagsToShow_st (run : RunObject) (targetBackfill : option PinnedTag)
    (allTagsWithPinned : nat) (unpinnedTags : list JSON) (h : Heap) : nat * Heap :=
  let '(tags, shown) := newArray [] (shownArrays h) in
  let '(tagKeys, shown) :=
    match targetBackfill with
    | Some tb =>
        if ptag_pinned tb
        then (({[ DagsterTag_Backfill ]} : gset string),
              pushArray tags (withLink tb (backfillLink (deref h run) tb)) shown)
        else (∅, shown)
    | None => (∅, shown)
    end in
  let shown :=
    List.fold_left (showStep_st tagKeys unpinnedTags tags)
                   (readArray allTagsWithPinned (pinnedArrays h)) shown in
  (tags, mkHeap (rawArrays h) (pinnedArrays h) shown).

(** One render of a row on the store: the references of
    [allTagsWithPinned] and of [tagsToShow], and the store afterwards. *)
Definition render_st (run : RunObject) (isJob : bool) (unpinnedTags : list JSON)
    (h : Heap) : (nat * nat) * Heap :=
  let '(all, h1) := allTagsWithPinned_st run isJob unpinnedTags h in
  let targetBackfill := targetBackfill (readArray all (pinnedArrays h1)) in
  let '(tags, h2) := tagsToShow_st run targetBackfill all unpinnedTags h1 in
  ((all, tags), h2).

End RunRow.

(** ** RunTable: what the selection feeds *)

(** [selectedFragments]: the runs of the list whose id is checked, handed
    to the bulk actions menu. *)
Definition selectedFragments (runs : list RunTableRunFragment) (checkedIds : gset string)
    : list RunTableRunFragment :=
  List.filter (fun run => bool_decide (run_id run ∈ checkedIds)) runs.

(** The header cell and the rows of a rendered body; an empty state has
    neither. *)
Definition contentHeader {Node : Type} (c : Content Node) : option HeaderCheckbox :=
  match c with
  | RunsTable header _ => header
  | _ => None
  end.

Definition contentRows {Node : Type} (c : Content Node) : list RunRowProps :=
  match c with
  | RunsTable _ rows => rows
  | _ => []
  end.

(** The checkbox cell of a row: rendered only with [canTerminateOrDelete]
    (the table always passes [onToggleChecked]), and then [!!checked]. *)
Definition rowCheckbox (props : RunRowProps) : option bool :=
  if props_canTerminateOrDelete props then Some (props_checked props) else None.

(** ** RunRow: the dialog and the hover flag

    The two [React.useState(false)] of a row, and the handlers the row
    mounts.  A handler of an element that is not rendered cannot fire: the
    "View all" button exists only when the full list is longer than the
    summary, the [ShortcutHandler] only while the row is hovered and the
    full list is not empty. *)
Record RowState : Type := mkRowState {
  showRunTags : bool;
  isHovered : bool
}.

Definition initialRowState : RowState := mkRowState false false.

Inductive RowEvent : Type :=
| MouseEnter
| MouseLeave
| ViewAllClick
| ShortcutT
| DialogClose.

Definition handleRowEvent (view : RunRowView) (st : RowState) (e : RowEvent) : RowState :=
  match e with
  | MouseEnter => mkRowState (showRunTags st) true
  | MouseLeave => mkRowState (showRunTags st) false
  | ViewAllClick =>
      match view_viewAllButton view with
      | Some _ => mkRowState true (isHovered st)
      | None => st
      end
  | ShortcutT =>
      if isHovered st && negb (Nat.eqb (length (view_dialogTags view)) 0)
      then mkRowState (negb (showRunTags st)) (isHovered st)
      else st
  | DialogClose => mkRowState false (isHovered st)
  end.

(** The row's state after a sequence of events, each handled under the
    view rendered at that time. *)
Definition rowAfter (st : RowState) (steps : list (RunRowView * RowEvent)) : RowState :=
  List.fold_left (fun st step => handleRowEvent (fst step) st (snd step)) steps st.

(** ** Sample inputs *)
Module Samples.

Definition backfillKey : string := "dagster/backfill".
Definition parentRunIdKey : string := "dagster/parent_run_id".

(** A stand-in for [runsPathWithFilters]: the tokens, joined after
    the path of the run list. *)
Definition runsPath (tokens : list RunFilterToken) : string :=
  "/runs?" +:+ String.concat "&" (List.map (fun t => token t +:+ "=" +:+ token_value t) tokens).

Definition backfillRun (assets : option (list AssetKey)) : RunTableRunFragment :=
  {| run_id := "r1"; run_mode := "default"; run_pipelineName := "etl";
     run_hasTerminatePermission := true; run_hasDeletePermission := false;
     run_assetSelection := assets;
     run_tags := [mkTag "team" "data"; mkTag backfillKey "bf42";
                  mkTag parentRunIdKey "r0"] |}.

Definition plainRun (id : string) : RunTableRunFragment :=
  {| run_id := id; run_mode := "default"; run_pipelineName := "etl";
     run_hasTerminatePermission := false; run_hasDeletePermission := false;
     run_assetSelection := None;
     run_tags := [mkTag "team" "data"] |}.

Definition etlRepo : RepoMatch :=
  {| repo_name := "repo"; repo_locationName := "loc";
     repo_pipelines := [mkPipelineOrJob "etl" true] |}.

Definition storedHeap : Heap :=
  {| rawArrays := [[mkTag "team" "data"; mkTag backfillKey "bf42"]];
     pinnedArrays := []; shownArrays := [] |}.

Definition storedRun : RunObject :=
  {| obj_id := "r1"; obj_mode := "default"; obj_pipelineName := "etl";
     obj_hasTerminatePermission := true; obj_hasDeletePermission := false;
     obj_assetSelection := None; obj_tags := 0%nat |}.

End Samples.

(** ** Facts about the building blocks *)

Lemma strictEqString_true (x : JSON) (s : string) :
  strictEqString x s = true ↔ x = JString s.
Proof.
  destruct x; simpl; try (split; [discriminate | intros H; inversion H]).
  rewrite String.eqb_eq. split; [intros -> | intros H; inversion H]; reflexivity.
Qed.

Lemma strictEqString_false (x : JSON) (s : string) :
  strictEqString x s = false ↔ x ≠ JString s.
Proof.
  rewrite <- strictEqString_true. destruct (strictEqString x s); split; congruence.
Qed.

Lemma indexOfFrom_absent (from : Z) (arr : list JSON) (s : string) :
  0 <= from → (indexOfFrom from arr s = -1 ↔ JString s ∉ arr).
Proof.
  revert from. induction arr as [|x rest IH]; intros from Hfrom; simpl.
  - split; [intros _; apply not_elem_of_nil | reflexivity].
  - destruct (strictEqString x s) eqn:E.
    + apply strictEqString_true in E as ->.
      split; [lia | intros H; exfalso; apply H; left].
    + apply strictEqString_false in E.
      rewrite (IH (from + 1)) by lia. rewrite not_elem_of_cons.
      split; [intros H; split; [congruence | exact H] | intros [_ H]; exact H].
Qed.

Lemma isPinned_spec (unpinnedTags : list JSON) (key : string) :
  isPinned unpinnedTags key = true ↔ JString key ∉ unpinnedTags.
Proof.
  unfold isPinned, indexOf. rewrite Z.eqb_eq. apply indexOfFrom_absent. lia.
Qed.

Lemma indexOfFrom_present (from : Z) (arr : list JSON) (s : string) :
  0 <= from → indexOfFrom from arr s ≠ -1 → JString s ∈ arr.
Proof.
  revert from. induction arr as [|x rest IH]; intros from Hfrom; simpl.
  - congruence.
  - destruct (strictEqString x s) eqn:E.
    + apply strictEqString_true in E as ->. intros _. left.
    + intros H. right. apply (IH (from + 1)); [lia | exact H].
Qed.

Lemma isPinned_false (unpinnedTags : list JSON) (key : string) :
  isPinned unpinnedTags key = false ↔ JString key ∈ unpinnedTags.
Proof.
  pose proof (isPinned_spec unpinnedTags key) as H.
  split.
  - unfold isPinned, indexOf. rewrite Z.eqb_neq. apply indexOfFrom_present. lia.
  - intros Hin. destruct (isPinned unpinnedTags key); [|reflexivity].
    exfalso. apply H; [reflexivity | exact Hin].
Qed.

Lemma elem_of_filter_strict (x : JSON) (tagKey : string) (arr : list JSON) :
  x ∈ List.filter (fun key => negb (strictEqString key tagKey)) arr
  ↔ x ∈ arr ∧ x ≠ JString tagKey.
Proof.
  rewrite !list_elem_of_In, List.filter_In, negb_true_iff, strictEqString_false.
  reflexivity.
Qed.

Lemma onToggleTagPin_pinned (tagKey : string) (arr : list JSON) :
  isPinned arr tagKey = true →
  onToggleTagPin tagKey (Some arr) = arr ++ [JString tagKey].
Proof. unfold onToggleTagPin, isPinned. simpl. intros ->. reflexivity. Qed.

Lemma onToggleTagPin_unpinned (tagKey : string) (arr : list JSON) :
  isPinned arr tagKey = false →
  onToggleTagPin tagKey (Some arr)
  = List.filter (fun key => negb (strictEqString key tagKey)) arr.
Proof. unfold onToggleTagPin, isPinned. simpl. intros ->. reflexivity. Qed.

Lemma onToggleTagPin_flips (tagKey : string) (arr : list JSON) :
  isPinned (onToggleTagPin tagKey (Some arr)) tagKey = negb (isPinned arr tagKey).
Proof.
  destruct (isPinned arr tagKey) eqn:E; simpl.
  - rewrite onToggleTagPin_pinned by exact E.
    apply isPinned_false. apply elem_of_app. right. left.
  - rewrite onToggleTagPin_unpinned by exact E.
    apply isPinned_spec. rewrite elem_of_filter_strict. intros [_ H]. congruence.
Qed.

Lemma isPinned_ext (arr arr' : list JSON) :
  (∀ x, x ∈ arr ↔ x ∈ arr') → ∀ key, isPinned arr key = isPinned arr' key.
Proof.
  intros H key.
  destruct (isPinned arr' key) eqn:E.
  - apply isPinned_spec. rewrite H. apply isPinned_spec. exact E.
  - apply isPinned_false. rewrite H. apply isPinned_false. exact E.
Qed.

Lemma toggle_twice_elem (tagKey : string) (arr : list JSON) (x : JSON) :
  x ∈ onToggleTagPin tagKey (Some (onToggleTagPin tagKey (Some arr))) ↔ x ∈ arr.
Proof.
  pose proof (onToggleTagPin_flips tagKey arr) as Hflip.
  destruct (isPinned arr tagKey) eqn:E; simpl in Hflip.
  - rewrite (onToggleTagPin_unpinned _ _ Hflip), (onToggleTagPin_pinned _ _ E).
    rewrite elem_of_filter_strict, elem_of_app, list_elem_of_singleton.
    apply isPinned_spec in E.
    split; [intros [[H | H] Hne]; [exact H | contradiction] |].
    intros H. split; [left; exact H | intros ->; contradiction].
  - rewrite (onToggleTagPin_pinned _ _ Hflip), (onToggleTagPin_unpinned _ _ E).
    rewrite elem_of_app, elem_of_filter_strict, list_elem_of_singleton.
    apply isPinned_false in E.
    split; [intros [[H _] | ->]; [exact H | exact E] |].
    intros H. destruct (strictEqString x tagKey) eqn:Ex.
    + right. apply strictEqString_true. exact Ex.
    + left. split; [exact H | apply strictEqString_false; exact Ex].
Qed.

(** C4. For every tag key and every state of the unpinned list (the falsy
    state included, which the updater reads as the empty list), one
    [onToggleTagPin] flips whether the key is a member of the unpinned list
    and a second one restores it: after two toggles the list has exactly
    the members it started with, so every key has its original pin state. *)
Theorem onToggleTagPin_twice (tagKey : string) (state : option (list JSON)) :
  let unpinned0 := default [] state in
  let unpinned1 := onToggleTagPin tagKey state in
  let unpinned2 := onToggleTagPin tagKey (Some unpinned1) in
  (JString tagKey ∈ unpinned1 ↔ JString tagKey ∉ unpinned0) ∧
  isPinned unpinned1 tagKey = negb (isPinned unpinned0 tagKey) ∧
  (∀ x : JSON, x ∈ unpinned2 ↔ x ∈ unpinned0) ∧
  (∀ key : string, isPinned unpinned2 key = isPinned unpinned0 key).
Proof.
  assert (Hst : onToggleTagPin tagKey state = onToggleTagPin tagKey (Some (default [] state)))
    by (destruct state; reflexivity).
  cbv zeta. rewrite Hst. set (arr := default [] state).
  pose proof (onToggleTagPin_flips tagKey arr) as Hflip.
  split; [|split; [exact Hflip | split]].
  - rewrite <- isPinned_false, <- isPinned_spec, Hflip.
    destruct (isPinned arr tagKey); simpl; split; congruence.
  - apply toggle_twice_elem.
  - apply isPinned_ext. apply toggle_twice_elem.
Qed.

Lemma allTagsWithPinned_pinned (run : RunTableRunFragment) (isJob : bool)
    (unpinnedTags : list JSON) (tag : PinnedTag) :
  In tag (allTagsWithPinned run isJob unpinnedTags) →
  ptag_pinned tag = isPinned unpinnedTags (ptag_key tag).
Proof.
  unfold allTagsWithPinned. rewrite List.in_map_iff.
  intros [raw [<- _]]. reflexivity.
Qed.

(** C5. A stored value that is not an array (a corrupted or foreign value,
    or [undefined] for an absent key) is validated to the empty list; the
    validator is total, so nothing is thrown, and with the empty list every
    tag key is pinned. *)
Theorem unpinnedTagsValidator_not_array (value : JSON) :
  Array_isArray value = false →
  unpinnedTagsValidator value = [] ∧
  (∀ key : string, isPinned (unpinnedTagsValidator value) key = true) ∧
  (∀ (run : RunTableRunFragment) (isJob : bool),
     Forall (fun tag => ptag_pinned tag = true)
            (allTagsWithPinned run isJob
               (useStateWithStorage unpinnedTagsValidator value))).
Proof.
  intros H. unfold useStateWithStorage, unpinnedTagsValidator. rewrite H.
  split; [reflexivity | split; [reflexivity |]].
  intros run isJob. apply Forall_forall. intros tag Hin.
  apply list_elem_of_In in Hin.
  rewrite (allTagsWithPinned_pinned _ _ _ _ Hin). reflexivity.
Qed.

Lemma unpinnedTagsValidator_not_array_witness :
  Array_isArray (JObject [("pinned", JBool true)]) = false ∧
  unpinnedTagsValidator (JObject [("pinned", JBool true)]) = [] ∧
  unpinnedTagsValidator JUndefined = [].
Proof.
  split; [reflexivity |].
  split.
  - apply (unpinnedTagsValidator_not_array (JObject [("pinned", JBool true)])). reflexivity.
  - apply (unpinnedTagsValidator_not_array JUndefined). reflexivity.
Defined.

Lemma addsModeTag_true (isJob : bool) (mode : string) :
  addsModeTag isJob mode = true ↔ isJob = false ∨ (isJob = true ∧ mode ≠ "default").
Proof.
  unfold addsModeTag. destruct isJob; simpl.
  - rewrite orb_false_r, negb_true_iff, String.eqb_neq.
    split; [intros H; right; split; [reflexivity | exact H] |].
    intros [H | [_ H]]; [discriminate | exact H].
  - split; [intros _; left; reflexivity | reflexivity].
Qed.

Lemma addsModeTag_false (isJob : bool) (mode : string) :
  addsModeTag isJob mode = false ↔ isJob = true ∧ mode = "default".
Proof.
  unfold addsModeTag. destruct isJob; simpl.
  - rewrite orb_false_r, negb_false_iff, String.eqb_eq.
    split; [intros H; split; [reflexivity | exact H] | intros [_ H]; exact H].
  - split; [discriminate | intros [H _]; discriminate].
Qed.

(** C2. The full tag list of a row is the run's raw tags, each with its pin
    flag, followed by the synthesized tag [{key: "mode", value: run.mode}]
    exactly when the run is not a job, or is a job whose mode is not
    'default'; for a job with mode 'default' it is the raw tags alone. *)
Theorem allTagsWithPinned_mode_tag (run : RunTableRunFragment) (isJob : bool)
    (unpinnedTags : list JSON) :
  ((isJob = false ∨ (isJob = true ∧ run_mode run ≠ "default")) →
   allTagsWithPinned run isJob unpinnedTags
   = List.map (withPinned unpinnedTags) (run_tags run)
     ++ [withPinned unpinnedTags (mkTag "mode" (run_mode run))]) ∧
  ((isJob = true ∧ run_mode run = "default") →
   allTagsWithPinned run isJob unpinnedTags
   = List.map (withPinned unpinnedTags) (run_tags run)).
Proof.
  unfold allTagsWithPinned, allTags. split; intros H.
  - apply addsModeTag_true in H. rewrite H, List.map_app. reflexivity.
  - apply addsModeTag_false in H. rewrite H. reflexivity.
Qed.

Lemma allTagsWithPinned_mode_tag_witness :
  allTagsWithPinned (Samples.plainRun "r1") false [JString "team"]
  = [mkPinnedTag "team" "data" false; mkPinnedTag "mode" "default" true] ∧
  allTagsWithPinned (Samples.plainRun "r1") true [JString "team"]
  = [mkPinnedTag "team" "data" false].
Proof.
  destruct (allTagsWithPinned_mode_tag (Samples.plainRun "r1") false [JString "team"])
    as [Hadd _].
  destruct (allTagsWithPinned_mode_tag (Samples.plainRun "r1") true [JString "team"])
    as [_ Hskip].
  split.
  - rewrite Hadd; [reflexivity | left; reflexivity].
  - rewrite Hskip; [reflexivity | split; reflexivity].
Defined.

(** C10. When the repository of a run is not resolved the row takes the
    run for not-a-job, and the full tag list is the raw tags, each with its
    key, value and pin flag, closed by the tag with key "mode" and value
    [run.mode], whatever [run.mode] is, 'default' included; the dialog
    shows that list. *)
Theorem unresolved_repo_mode_tag (DagsterTag_Backfill DagsterTag_ParentRunId : string)
    (runsPathWithFilters : list RunFilterToken -> string)
    (run : RunTableRunFragment) (stored : JSON) :
  let unpinnedTags := useStateWithStorage unpinnedTagsValidator stored in
  let view := RunRow DagsterTag_Backfill DagsterTag_ParentRunId runsPathWithFilters
                     run None stored in
  let all := allTagsWithPinned run (isJob None (run_pipelineName run)) unpinnedTags in
  isJob None (run_pipelineName run) = false ∧
  view_isJob view = false ∧
  all = List.map (withPinned unpinnedTags) (run_tags run)
        ++ [withPinned unpinnedTags (mkTag "mode" (run_mode run))] ∧
  view_dialogTags view
  = List.map asTagType
      (List.map (withPinned unpinnedTags) (run_tags run)
       ++ [withPinned unpinnedTags (mkTag "mode" (run_mode run))]) ∧
  all = List.map (fun tag => mkPinnedTag (tag_key tag) (tag_value tag)
                                         (isPinned unpinnedTags (tag_key tag)))
                 (run_tags run)
        ++ [mkPinnedTag "mode" (run_mode run) (isPinned unpinnedTags "mode")] ∧
  last all = Some (mkPinnedTag "mode" (run_mode run) (isPinned unpinnedTags "mode")) ∧
  length all = S (length (run_tags run)) ∧
  view_dialogTags view
  = List.map (fun tag => mkTagType (tag_key tag) (tag_value tag)
                                   (Some (isPinned unpinnedTags (tag_key tag))) None)
             (run_tags run)
    ++ [mkTagType "mode" (run_mode run) (Some (isPinned unpinnedTags "mode")) None] ∧
  (isPinned unpinnedTags "mode" = true ↔ JString "mode" ∉ unpinnedTags).
Proof.
  cbv zeta.
  set (unpinnedTags := useStateWithStorage unpinnedTagsValidator stored).
  assert (Hall : allTagsWithPinned run (isJob None (run_pipelineName run)) unpinnedTags
                 = List.map (fun tag => mkPinnedTag (tag_key tag) (tag_value tag)
                                          (isPinned unpinnedTags (tag_key tag)))
                            (run_tags run)
                   ++ [mkPinnedTag "mode" (run_mode run) (isPinned unpinnedTags "mode")]).
  { unfold allTagsWithPinned, allTags. simpl. rewrite List.map_app. reflexivity. }
  split; [reflexivity |]. split; [reflexivity |].
  split; [exact Hall |].
  split; [unfold RunRow; cbn [view_dialogTags]; fold unpinnedTags; rewrite Hall;
          reflexivity |].
  split; [exact Hall |].
  split; [rewrite Hall; apply last_snoc |].
  split; [rewrite Hall, length_app, List.length_map; simpl; lia |].
  split; [| apply isPinned_spec].
  unfold RunRow. cbn [view_dialogTags]. fold unpinnedTags.
  rewrite Hall, List.map_app, List.map_map. reflexivity.
Qed.

Lemma unresolved_repo_mode_tag_witness :
  allTagsWithPinned (Samples.plainRun "r1") (isJob None "etl") [JString "team"]
  = [mkPinnedTag "team" "data" false; mkPinnedTag "mode" "default" true] ∧
  view_dialogTags
    (RunRow Samples.backfillKey Samples.parentRunIdKey Samples.runsPath
            (Samples.plainRun "r1") None (JArray [JString "team"]))
  = [mkTagType "team" "data" (Some false) None;
     mkTagType "mode" "default" (Some true) None].
Proof.
  destruct (unresolved_repo_mode_tag Samples.backfillKey Samples.parentRunIdKey
              Samples.runsPath (Samples.plainRun "r1") (JArray [JString "team"]))
    as (_ & _ & _ & _ & Hall & _ & _ & Hdialog & _).
  split.
  - etransitivity; [exact Hall | reflexivity].
  - etransitivity; [exact Hdialog | reflexivity].
Defined.

Section RunRowFacts.

Variable DagsterTag_Backfill : string.
Variable DagsterTag_ParentRunId : string.
Variable runsPathWithFilters : list RunFilterToken -> string.

Lemma isReexecution_true (run : RunTableRunFragment) :
  isReexecution DagsterTag_ParentRunId run = true
  ↔ ∃ tag, tag ∈ run_tags run ∧ tag_key tag = DagsterTag_ParentRunId.
Proof.
  unfold isReexecution. rewrite List.existsb_exists.
  split; intros [tag [Hin Hkey]]; exists tag.
  - split; [apply list_elem_of_In; exact Hin | apply String.eqb_eq; exact Hkey].
  - split; [apply list_elem_of_In; exact Hin | apply String.eqb_eq; exact Hkey].
Qed.

(** C6. The row shows the "Re-execution" tag iff some raw tag of the run
    has the parent-run-id key; when no raw tag has that key the flag is
    false. *)
Theorem isReexecution_iff (run : RunTableRunFragment) (repo : option RepoMatch)
    (stored : JSON) :
  let view := RunRow DagsterTag_Backfill DagsterTag_ParentRunId runsPathWithFilters
                     run repo stored in
  view_reexecutionTag view = isReexecution DagsterTag_ParentRunId run ∧
  (view_reexecutionTag view = true
   ↔ ∃ tag, tag ∈ run_tags run ∧ tag_key tag = DagsterTag_ParentRunId) ∧
  (view_reexecutionTag view = false
   ↔ Forall (fun tag => tag_key tag ≠ DagsterTag_ParentRunId) (run_tags run)).
Proof.
  cbv zeta. unfold RunRow; simpl.
  split; [reflexivity | split; [apply isReexecution_true |]].
  rewrite Forall_forall.
  pose proof (isReexecution_true run) as H.
  destruct (isReexecution DagsterTag_ParentRunId run).
  - split; [discriminate |]. intros Hall. exfalso.
    destruct H as [H _]. destruct (H eq_refl) as [tag [Hin Hkey]].
    exact (Hall tag Hin Hkey).
  - split; [| reflexivity]. intros _ tag Hin Hkey.
    destruct H as [_ H]. discriminate H. exists tag. split; assumption.
Qed.

Lemma fold_showStep (tagKeys : gset string) (unpinnedTags : list JSON)
    (all : list PinnedTag) (tags : list TagType) :
  List.fold_left (showStep tagKeys unpinnedTags) all tags
  = tags ++ List.map asTagType
      (List.filter (fun tag => isPinned unpinnedTags (ptag_key tag)
                               && negb (bool_decide (ptag_key tag ∈ tagKeys))) all).
Proof.
  revert tags. induction all as [|tag rest IH]; intros tags; simpl.
  - rewrite app_nil_r. reflexivity.
  - rewrite IH. unfold showStep, isPinned.
    destruct (bool_decide (ptag_key tag ∈ tagKeys)); simpl.
    + rewrite andb_false_r. reflexivity.
    + rewrite andb_true_r.
      destruct (Z.eqb (indexOf unpinnedTags (ptag_key tag)) (-1)); simpl.
      * rewrite <- app_assoc. reflexivity.
      * reflexivity.
Qed.

(** [tagsToShow] in closed form, for any list of derived tags. *)
Lemma tagsToShow_closed (run : RunTableRunFragment) (all : list PinnedTag)
    (unpinnedTags : list JSON) :
  tagsToShow DagsterTag_Backfill runsPathWithFilters run
             (targetBackfill DagsterTag_Backfill all) all unpinnedTags
  = match targetBackfill DagsterTag_Backfill all with
    | Some tb =>
        if ptag_pinned tb
        then withLink tb (backfillLink DagsterTag_Backfill runsPathWithFilters run tb)
             :: List.map asTagType
                  (List.filter
                     (fun tag => isPinned unpinnedTags (ptag_key tag)
                                 && negb (String.eqb (ptag_key tag) DagsterTag_Backfill))
                     all)
        else List.map asTagType
               (List.filter (fun tag => isPinned unpinnedTags (ptag_key tag)) all)
    | None =>
        List.map asTagType
          (List.filter (fun tag => isPinned unpinnedTags (ptag_key tag)) all)
    end.
Proof.
  unfold tagsToShow.
  assert (Hempty : List.fold_left (showStep ∅ unpinnedTags) all []
                   = List.map asTagType
                       (List.filter (fun tag => isPinned unpinnedTags (ptag_key tag)) all)).
  { rewrite fold_showStep. simpl. f_equal. apply List.filter_ext.
    intros tag. cbv beta. case_bool_decide as Hin; [| apply andb_true_r].
    exfalso. exact (not_elem_of_empty _ Hin). }
  destruct (targetBackfill DagsterTag_Backfill all) as [tb|]; [| exact Hempty].
  destruct (ptag_pinned tb); [| exact Hempty].
  rewrite fold_showStep. simpl. do 2 f_equal. apply List.filter_ext.
  intros tag. cbv beta. f_equal.
  case_bool_decide as Hin; rewrite elem_of_singleton in Hin; simpl; symmetry.
  - apply negb_false_iff, String.eqb_eq. exact Hin.
  - apply negb_true_iff, String.eqb_neq. exact Hin.
Qed.

Lemma shown_filter_pinned (unpinnedTags : list JSON) (keep : PinnedTag -> bool)
    (all : list PinnedTag) :
  (∀ tag, keep tag = true → isPinned unpinnedTags (ptag_key tag) = true) →
  Forall (fun tag => JString (tt_key tag) ∉ unpinnedTags)
         (List.map asTagType (List.filter keep all)).
Proof.
  intros Hkeep. apply Forall_forall. intros shown Hin.
  apply list_elem_of_In, List.in_map_iff in Hin as [tag [<- Hin]].
  apply List.filter_In in Hin as [_ Hk]. simpl.
  apply isPinned_spec, Hkeep, Hk.
Qed.



End RunRowFacts.


(** ** The row on sample runs *)

Example RunRow_job_default_mode :
  RunRow Samples.backfillKey Samples.parentRunIdKey Samples.runsPath
         (Samples.backfillRun None) (Some Samples.etlRepo)
         (JArray [JString "team"; JNumber "3"])
  = {| view_isJob := true;
       view_reexecutionTag := true;
       view_summaryTags :=
         Some [mkTagType "dagster/backfill" "bf42" (Some true)
                         (Some "/runs?tag=dagster/backfill=bf42");
               mkTagType "dagster/parent_run_id" "r0" (Some true) None];
       view_viewAllButton := Some 3%nat;
       view_dialogTags :=
         [mkTagType "team" "data" (Some false) None;
          mkTagType "dagster/backfill" "bf42" (Some true) None;
          mkTagType "dagster/parent_run_id" "r0" (Some true) None] |}.
Proof. vm_compute. reflexivity. Qed.

Example RunRow_backfill_unpinned :
  view_summaryTags
    (RunRow Samples.backfillKey Samples.parentRunIdKey Samples.runsPath
            (Samples.backfillRun (Some [mkAssetKey ["orders"]])) None
            (JArray [JString Samples.backfillKey]))
  = Some [mkTagType "team" "data" (Some true) None;
          mkTagType "dagster/parent_run_id" "r0" (Some true) None;
          mkTagType "mode" "default" (Some true) None].
Proof. vm_compute. reflexivity. Qed.

Example onToggleTagPin_sample :
  onToggleTagPin "b" (Some [JString "a"; JString "b"; JString "c"; JString "b"])
  = [JString "a"; JString "c"] ∧
  onToggleTagPin "b" (Some [JString "a"; JString "c"]) = [JString "a"; JString "c"; JString "b"].
Proof. split; reflexivity. Qed.

(** ** The table body *)

(** C7 as stated fails: with the [emptyState] prop set, an empty list
    renders what the prop returns, whether a filter is active or not. *)
Lemma content_emptyState_counterexample :
  content [] None (Some (fun _ : unit => "custom")) ∅ = EmptyStateOverride "custom" ∧
  content [] None (Some (fun _ : unit => "custom")) ∅ ≠ NoRunsFound ∧
  content [] (Some [("pipelineName", JString "etl")]) (Some (fun _ : unit => "custom")) ∅
  ≠ NoMatchingRuns.
Proof. repeat split; discriminate. Qed.

(** C7, amended. Without an [emptyState] prop the body is decided by the
    length of the run list and the filter: an empty list renders "No runs
    found" when the filter has no property and the distinct "No matching
    runs" when it has one.  With the prop, an empty list renders the prop's
    result.  A non-empty list renders the table, one row per run, whatever
    the filter and the prop. *)
Theorem content_states {Node : Type} (filter : option RunsFilter)
    (emptyState : option (unit -> Node)) (checkedIds : gset string)
    (run : RunTableRunFragment) (runs : list RunTableRunFragment) :
  content [] filter (@None (unit -> Node)) checkedIds
  = (if anyFilter filter then NoMatchingRuns else NoRunsFound) ∧
  @NoMatchingRuns Node ≠ NoRunsFound ∧
  (∀ f : unit -> Node, content [] filter (Some f) checkedIds = EmptyStateOverride (f tt)) ∧
  (∃ header rows,
     content (run :: runs) filter emptyState checkedIds = RunsTable header rows ∧
     List.map props_run rows = run :: runs) ∧
  anyFilter None = false ∧
  anyFilter (Some []) = false ∧
  (∀ property rest, anyFilter (Some (property :: rest)) = true).
Proof.
  split; [reflexivity |].
  split; [discriminate |].
  split; [reflexivity |].
  split; [| repeat split; reflexivity].
  unfold content. simpl. eexists. eexists. split; [reflexivity |].
  simpl. f_equal. rewrite List.map_map. simpl. apply List.map_id.
Qed.

(** ** The store: what a render allocates, and what it leaves alone *)

Section ArrayFacts.
Context {A : Type}.
Implicit Types (arrays : list (list A)) (items : list A).

Lemma readArray_old arrays items (ref : nat) :
  (ref < length arrays)%nat → readArray ref (arrays ++ [items]) = readArray ref arrays.
Proof. intros H. unfold readArray. rewrite lookup_app_l by exact H. reflexivity. Qed.

Lemma readArray_new arrays items :
  readArray (length arrays) (arrays ++ [items]) = items.
Proof. unfold readArray. rewrite list_lookup_middle by reflexivity. reflexivity. Qed.

Lemma pushArray_new arrays items (item : A) :
  pushArray (length arrays) item (arrays ++ [items]) = arrays ++ [items ++ [item]].
Proof.
  unfold pushArray. rewrite alter_app_r_alt by reflexivity.
  rewrite Nat.sub_diag. reflexivity.
Qed.

(** A [push] is seen through every alias of the array it updates. *)
Lemma pushArray_seen arrays (ref : nat) (item : A) :
  (ref < length arrays)%nat →
  readArray ref (pushArray ref item arrays) = readArray ref arrays ++ [item].
Proof.
  intros H. unfold readArray, pushArray. rewrite list_lookup_alter_eq.
  destruct (lookup_lt_is_Some_2 arrays ref H) as [items ->]. reflexivity.
Qed.
End ArrayFacts.

Lemma allTagsWithPinned_st_spec (run : RunObject) (isJob : bool) (unpinnedTags : list JSON)
    (h : Heap) :
  allTagsWithPinned_st run isJob unpinnedTags h
  = (length (pinnedArrays h),
     {| rawArrays := rawArrays h ++ [allTags (deref h run) isJob];
        pinnedArrays := pinnedArrays h ++ [allTagsWithPinned (deref h run) isJob unpinnedTags];
        shownArrays := shownArrays h |}).
Proof.
  unfold allTagsWithPinned_st, allTagsWithPinned, allTags, newArray. simpl.
  destruct (addsModeTag isJob (obj_mode run)).
  - rewrite pushArray_new, readArray_new. reflexivity.
  - rewrite readArray_new. reflexivity.
Qed.

Lemma withoutPinned_allTagsWithPinned (run : RunTableRunFragment) (isJob : bool)
    (unpinnedTags : list JSON) :
  List.map withoutPinned (allTagsWithPinned run isJob unpinnedTags) = allTags run isJob.
Proof.
  unfold allTagsWithPinned. rewrite List.map_map.
  rewrite <- (List.map_id (allTags run isJob)) at 2.
  apply List.map_ext. intros [key value]. reflexivity.
Qed.

Section RowStoreFacts.

Variable DagsterTag_Backfill : string.
Variable runsPathWithFilters : list RunFilterToken -> string.

Lemma fold_showStep_st (tagKeys : gset string) (unpinnedTags : list JSON)
    (all : list PinnedTag) (shown : list (list TagType)) (tags : list TagType) :
  List.fold_left (showStep_st tagKeys unpinnedTags (length shown)) all (shown ++ [tags])
  = shown ++ [List.fold_left (showStep tagKeys unpinnedTags) all tags].
Proof.
  revert tags. induction all as [|tag rest IH]; intros tags; simpl; [reflexivity |].
  unfold showStep_st at 2. unfold showStep at 2.
  destruct (bool_decide (ptag_key tag ∈ tagKeys)); [apply IH |].
  destruct (Z.eqb (indexOf unpinnedTags (ptag_key tag)) (-1)); [| apply IH].
  rewrite pushArray_new. apply IH.
Qed.

Lemma tagsToShow_st_spec (run : RunObject) (targetBackfill : option PinnedTag)
    (allRef : nat) (unpinnedTags : list JSON) (h : Heap) :
  tagsToShow_st DagsterTag_Backfill runsPathWithFilters run targetBackfill allRef
                unpinnedTags h
  = (length (shownArrays h),
     {| rawArrays := rawArrays h;
        pinnedArrays := pinnedArrays h;
        shownArrays :=
          shownArrays h
          ++ [tagsToShow DagsterTag_Backfill runsPathWithFilters (deref h run)
                         targetBackfill (readArray allRef (pinnedArrays h))
                         unpinnedTags] |}).
Proof.
  unfold tagsToShow_st, tagsToShow, newArray.
  destruct targetBackfill as [tb|]; [destruct (ptag_pinned tb) |].
  - rewrite pushArray_new, fold_showStep_st. reflexivity.
  - rewrite fold_showStep_st. reflexivity.
  - rewrite fold_showStep_st. reflexivity.
Qed.

(** A render extends the store by three arrays, whose contents are the
    row's derivations on the run as stored, and writes nowhere else. *)
Lemma render_st_spec (run : RunObject) (isJob : bool) (unpinnedTags : list JSON)
    (h : Heap) :
  let stored := deref h run in
  let all := allTagsWithPinned stored isJob unpinnedTags in
  render_st DagsterTag_Backfill runsPathWithFilters run isJob unpinnedTags h
  = ((length (pinnedArrays h), length (shownArrays h)),
     {| rawArrays := rawArrays h ++ [allTags stored isJob];
        pinnedArrays := pinnedArrays h ++ [all];
        shownArrays :=
          shownArrays h
          ++ [tagsToShow DagsterTag_Backfill runsPathWithFilters stored
                         (targetBackfill DagsterTag_Backfill all) all unpinnedTags] |}).
Proof.
  cbv zeta. unfold render_st.
  rewrite allTagsWithPinned_st_spec, tagsToShow_st_spec. simpl.
  rewrite readArray_new. reflexivity.
Qed.

Lemma deref_extended (run : RunObject) (h h' : Heap) (fresh : list (list PipelineTag)) :
  rawArrays h' = rawArrays h ++ fresh →
  (obj_tags run < length (rawArrays h))%nat →
  deref h' run = deref h run.
Proof.
  intros Hraw Hlive. unfold deref, readArray.
  rewrite Hraw, lookup_app_l by exact Hlive. reflexivity.
Qed.

(** The store does see a write on the raw tag list: had the row pushed on
    [run.tags] itself, the run would read differently afterwards. *)
Lemma push_on_run_tags_seen (run : RunObject) (h : Heap) (tag : PipelineTag) :
  (obj_tags run < length (rawArrays h))%nat →
  run_tags (deref {| rawArrays := pushArray (obj_tags run) tag (rawArrays h);
                     pinnedArrays := pinnedArrays h;
                     shownArrays := shownArrays h |} run)
  = run_tags (deref h run) ++ [tag].
Proof. intros Hlive. simpl. apply pushArray_seen. exact Hlive. Qed.

(** C9. Render a row, toggle the pin of a key, render the row again: the
    run read from the store is the same after each render as before, raw
    tag list included, and every array the store held is left as it was.
    Each render builds the full tag list anew from the stored run; the
    two full lists hold the same keys and values, mode tag included, and
    differ at most in pin flags, and the second summary is the one of the
    stored run under the toggled unpinned list. *)
Theorem render_leaves_run_unchanged (run : RunObject) (isJob : bool)
    (unpinnedTags : list JSON) (tagKey : string) (h : Heap) :
  (obj_tags run < length (rawArrays h))%nat →
  let toggled := onToggleTagPin tagKey (Some unpinnedTags) in
  let first := render_st DagsterTag_Backfill runsPathWithFilters run isJob unpinnedTags h in
  let second :=
    render_st DagsterTag_Backfill runsPathWithFilters run isJob toggled first.2 in
  let all := allTagsWithPinned (deref h run) isJob toggled in
  deref first.2 run = deref h run ∧
  deref second.2 run = deref h run ∧
  take (length (rawArrays h)) (rawArrays second.2) = rawArrays h ∧
  take (length (pinnedArrays h)) (pinnedArrays second.2) = pinnedArrays h ∧
  take (length (shownArrays h)) (shownArrays second.2) = shownArrays h ∧
  readArray first.1.1 (pinnedArrays second.2) = readArray first.1.1 (pinnedArrays first.2) ∧
  readArray first.1.1 (pinnedArrays first.2)
  = allTagsWithPinned (deref h run) isJob unpinnedTags ∧
  readArray second.1.1 (pinnedArrays second.2) = all ∧
  List.map withoutPinned (readArray second.1.1 (pinnedArrays second.2))
  = List.map withoutPinned (readArray first.1.1 (pinnedArrays first.2)) ∧
  List.map withoutPinned all = allTags (deref h run) isJob ∧
  readArray second.1.2 (shownArrays second.2)
  = tagsToShow DagsterTag_Backfill runsPathWithFilters (deref h run)
               (targetBackfill DagsterTag_Backfill all) all toggled.
Proof.
  intros Hlive. cbv zeta.
  rewrite (render_st_spec run isJob unpinnedTags h). cbn [fst snd].
  set (h1 := {| rawArrays := rawArrays h ++ _ |}).
  assert (Hrun1 : deref h1 run = deref h run)
    by (apply (deref_extended run h h1 _ eq_refl Hlive)).
  rewrite (render_st_spec run isJob _ h1). cbn [fst snd]. rewrite Hrun1.
  subst h1. cbn [rawArrays pinnedArrays shownArrays].
  split; [reflexivity |].
  split; [eapply deref_extended;
          [cbn [rawArrays]; rewrite <- app_assoc; reflexivity | exact Hlive] |].
  rewrite <- !app_assoc.
  split; [apply take_app_length |].
  split; [apply take_app_length |].
  split; [apply take_app_length |].
  rewrite !app_assoc.
  split; [rewrite readArray_old by (rewrite length_app; simpl; lia); reflexivity |].
  split; [apply readArray_new |].
  split; [apply readArray_new |].
  split; [rewrite !readArray_new, !withoutPinned_allTagsWithPinned; reflexivity |].
  split; [apply withoutPinned_allTagsWithPinned |].
  apply readArray_new.
Qed.

End RowStoreFacts.

Lemma render_leaves_run_unchanged_witness :
  let second :=
    render_st Samples.backfillKey Samples.runsPath Samples.storedRun true
      (onToggleTagPin "team" (Some []))
      (render_st Samples.backfillKey Samples.runsPath Samples.storedRun true []
                 Samples.storedHeap).2 in
  (obj_tags Samples.storedRun < length (rawArrays Samples.storedHeap))%nat ∧
  deref second.2 Samples.storedRun = deref Samples.storedHeap Samples.storedRun.
Proof.
  cbv zeta.
  assert (Hlive : (obj_tags Samples.storedRun < length (rawArrays Samples.storedHeap))%nat)
    by (simpl; lia).
  split; [exact Hlive |].
  apply (render_leaves_run_unchanged Samples.backfillKey Samples.runsPath
           Samples.storedRun true [] "team" Samples.storedHeap Hlive).
Defined.

(** ** More on the pin toggle *)

Lemma isPinned_snoc (arr : list JSON) (tagKey key : string) :
  isPinned (arr ++ [JString tagKey]) key = isPinned arr key && negb (String.eqb key tagKey).
Proof.
  apply Bool.eq_iff_eq_true.
  rewrite andb_true_iff, negb_true_iff, String.eqb_neq, !isPinned_spec.
  rewrite not_elem_of_app, list_elem_of_singleton.
  split; intros [Harr Hne]; (split; [exact Harr |]); congruence.
Qed.

Lemma isPinned_filter_strict (arr : list JSON) (tagKey key : string) :
  isPinned (List.filter (fun x => negb (strictEqString x tagKey)) arr) key
  = isPinned arr key || String.eqb key tagKey.
Proof.
  apply Bool.eq_iff_eq_true.
  rewrite orb_true_iff, String.eqb_eq, !isPinned_spec, elem_of_filter_strict.
  split.
  - intros Hnot. destruct (String.eqb_spec key tagKey) as [-> | Hne]; [right; reflexivity |].
    left. intros Hin. apply Hnot. split; [exact Hin | congruence].
  - intros [Harr | ->] [Hin Hne]; [exact (Harr Hin) | congruence].
Qed.

Lemma filter_strict_idem (arr : list JSON) (tagKey : string) :
  List.filter (fun x => negb (strictEqString x tagKey))
              (List.filter (fun x => negb (strictEqString x tagKey)) arr)
  = List.filter (fun x => negb (strictEqString x tagKey)) arr.
Proof.
  induction arr as [|x rest IH]; simpl; [reflexivity |].
  destruct (strictEqString x tagKey) eqn:E; simpl; [exact IH |].
  rewrite E. simpl. f_equal. exact IH.
Qed.

(** X1. A toggle of one key leaves every other key as it was: its pin
    state is unchanged, and the stored elements other than the toggled key
    keep their places relative to each other. *)
Theorem onToggleTagPin_other_keys (tagKey key : string) (state : option (list JSON)) :
  key ≠ tagKey →
  isPinned (onToggleTagPin tagKey state) key = isPinned (default [] state) key ∧
  List.filter (fun x => negb (strictEqString x tagKey)) (onToggleTagPin tagKey state)
  = List.filter (fun x => negb (strictEqString x tagKey)) (default [] state).
Proof.
  intros Hne.
  assert (Hst : onToggleTagPin tagKey state = onToggleTagPin tagKey (Some (default [] state)))
    by (destruct state; reflexivity).
  rewrite Hst. set (arr := default [] state).
  apply String.eqb_neq in Hne.
  destruct (isPinned arr tagKey) eqn:E.
  - rewrite (onToggleTagPin_pinned _ _ E), isPinned_snoc, Hne, andb_true_r.
    split; [reflexivity |].
    rewrite List.filter_app. simpl. rewrite String.eqb_refl. simpl. apply app_nil_r.
  - rewrite (onToggleTagPin_unpinned _ _ E), isPinned_filter_strict, Hne, orb_false_r.
    split; [reflexivity | apply filter_strict_idem].
Qed.

Lemma onToggleTagPin_other_keys_witness :
  isPinned (onToggleTagPin "team" (Some [JString "owner"; JString "team"])) "owner" = false ∧
  isPinned (onToggleTagPin "team" (Some [JString "owner"; JString "team"])) "mode" = true.
Proof.
  split.
  - apply (onToggleTagPin_other_keys "team" "owner" (Some [JString "owner"; JString "team"])).
    discriminate.
  - apply (onToggleTagPin_other_keys "team" "mode" (Some [JString "owner"; JString "team"])).
    discriminate.
Defined.

(** X2. A stored list without repeated elements stays without repeated
    elements under a toggle. *)
Theorem onToggleTagPin_NoDup (tagKey : string) (arr : list JSON) :
  NoDup arr → NoDup (onToggleTagPin tagKey (Some arr)).
Proof.
  intros Hnodup. destruct (isPinned arr tagKey) eqn:E.
  - rewrite (onToggleTagPin_pinned _ _ E). apply NoDup_app.
    split; [exact Hnodup | split; [| apply NoDup_singleton]].
    intros x Hin Hx. apply list_elem_of_singleton in Hx as ->.
    apply isPinned_spec in E. exact (E Hin).
  - rewrite (onToggleTagPin_unpinned _ _ E).
    apply NoDup_ListNoDup, List.NoDup_filter, NoDup_ListNoDup. exact Hnodup.
Qed.

Lemma onToggleTagPin_NoDup_witness :
  NoDup (onToggleTagPin "team" (Some [JString "owner"; JNumber "3"])).
Proof.
  apply (onToggleTagPin_NoDup "team" [JString "owner"; JNumber "3"]).
  apply NoDup_cons. split; [| apply NoDup_singleton].
  rewrite list_elem_of_singleton. discriminate.
Defined.

(** ** More on [isJob] *)

(** X3. With a resolved repository, the row takes the run for a job
    exactly when the first pipeline or job bearing the run's pipeline name
    is a job: entries after the first of that name are not consulted. *)
Theorem isJob_first_match (repo : RepoMatch) (pipelineName : string) :
  isJob (Some repo) pipelineName = true
  ↔ ∃ before entry after,
      repo_pipelines repo = before ++ entry :: after ∧
      Forall (fun p => pj_name p ≠ pipelineName) before ∧
      pj_name entry = pipelineName ∧
      pj_isJob entry = true.
Proof.
  unfold isJob. destruct repo as [name location pipelines]. simpl.
  induction pipelines as [|p rest IH]; simpl.
  - split; [discriminate |]. intros (before & entry & after & Heq & _).
    destruct before; discriminate.
  - destruct (String.eqb_spec (pj_name p) pipelineName) as [Hname | Hname].
    + split.
      * intros Hjob. exists [], p, rest. repeat split; [constructor | exact Hname | exact Hjob].
      * intros (before & entry & after & Heq & Hbefore & _ & Hjob).
        destruct before as [|q before]; simpl in Heq; inversion Heq; subst.
        -- exact Hjob.
        -- apply Forall_cons in Hbefore as [Hq _]. contradiction.
    + rewrite IH. split.
      * intros (before & entry & after & Heq & Hbefore & Hentry & Hjob).
        exists (p :: before), entry, after. rewrite Heq.
        repeat split; [apply Forall_cons; split; assumption | exact Hentry | exact Hjob].
      * intros (before & entry & after & Heq & Hbefore & Hentry & Hjob).
        destruct before as [|q before]; simpl in Heq; inversion Heq; subst.
        -- contradiction.
        -- apply Forall_cons in Hbefore as [_ Hbefore].
           exists before, entry, after. repeat split; assumption.
Qed.

(** X4. When the resolved repository lists no pipeline or job with the
    run's pipeline name, the row behaves as for an unresolved repository:
    the run is not a job and the full tag list is the raw tags closed by
    the tag with key "mode" and value [run.mode], for mode 'default'
    too. *)
Theorem isJob_no_entry (repo : RepoMatch) (run : RunTableRunFragment)
    (unpinnedTags : list JSON) :
  Forall (fun p => pj_name p ≠ run_pipelineName run) (repo_pipelines repo) →
  let all := allTagsWithPinned run (isJob (Some repo) (run_pipelineName run)) unpinnedTags in
  isJob (Some repo) (run_pipelineName run) = false ∧
  all = List.map (withPinned unpinnedTags) (run_tags run)
        ++ [withPinned unpinnedTags (mkTag "mode" (run_mode run))] ∧
  all = List.map (fun tag => mkPinnedTag (tag_key tag) (tag_value tag)
                                         (isPinned unpinnedTags (tag_key tag)))
                 (run_tags run)
        ++ [mkPinnedTag "mode" (run_mode run) (isPinned unpinnedTags "mode")] ∧
  last all = Some (mkPinnedTag "mode" (run_mode run) (isPinned unpinnedTags "mode")).
Proof.
  intros Hnone. cbv zeta.
  assert (Hjob : isJob (Some repo) (run_pipelineName run) = false).
  { unfold isJob.
    destruct (List.find _ (repo_pipelines repo)) as [m|] eqn:Hfind; [| reflexivity].
    apply List.find_some in Hfind as [Hin Hname].
    apply String.eqb_eq in Hname.
    rewrite Forall_forall in Hnone. apply list_elem_of_In in Hin.
    destruct (Hnone m Hin Hname). }
  split; [exact Hjob |].
  rewrite Hjob. unfold allTagsWithPinned, allTags. simpl.
  rewrite List.map_app. simpl.
  split; [reflexivity | split; [reflexivity | apply last_snoc]].
Qed.

Lemma isJob_no_entry_witness :
  isJob (Some (mkRepoMatch "repo" "loc" [mkPipelineOrJob "other" true])) "etl" = false ∧
  allTagsWithPinned (Samples.plainRun "r1")
    (isJob (Some (mkRepoMatch "repo" "loc" [mkPipelineOrJob "other" true])) "etl")
    [JString "mode"]
  = [mkPinnedTag "team" "data" true; mkPinnedTag "mode" "default" false].
Proof.
  assert (Hnone : Forall (fun p => pj_name p ≠ run_pipelineName (Samples.plainRun "r1"))
                         (repo_pipelines
                            (mkRepoMatch "repo" "loc" [mkPipelineOrJob "other" true])))
    by (apply Forall_cons; split; [discriminate | apply Forall_nil_2]).
  destruct (isJob_no_entry (mkRepoMatch "repo" "loc" [mkPipelineOrJob "other" true])
              (Samples.plainRun "r1") [JString "mode"] Hnone)
    as (Hjob & _ & Hall & _).
  split; [exact Hjob |].
  etransitivity; [exact Hall | reflexivity].
Defined.

(** ** More on the summary of a row *)

Lemma filter_filter_and {A : Type} (f g : A -> bool) (l : list A) :
  List.filter g (List.filter f l) = List.filter (fun x => f x && g x) l.
Proof.
  induction l as [|x rest IH]; simpl; [reflexivity |].
  destruct (f x); simpl; [destruct (g x); rewrite IH; reflexivity | exact IH].
Qed.

Lemma filter_none_length {A : Type} (f : A -> bool) (l : list A) :
  length (List.filter f l) = 0%nat ↔ forallb (fun x => negb (f x)) l = true.
Proof.
  induction l as [|x rest IH]; simpl; [split; reflexivity |].
  destruct (f x); simpl; [split; discriminate | exact IH].
Qed.

Lemma filter_all_length {A : Type} (f : A -> bool) (l : list A) :
  length (List.filter (fun x => negb (f x)) l) = 0%nat ↔ forallb f l = true.
Proof.
  induction l as [|x rest IH]; simpl; [split; reflexivity |].
  destruct (f x); simpl; [exact IH | split; discriminate].
Qed.

Lemma allTagsWithPinned_ext (run : RunTableRunFragment) (isJob : bool)
    (unpinnedTags unpinnedTags' : list JSON) :
  (∀ key, isPinned unpinnedTags key = isPinned unpinnedTags' key) →
  allTagsWithPinned run isJob unpinnedTags = allTagsWithPinned run isJob unpinnedTags'.
Proof.
  intros Hsame. unfold allTagsWithPinned. apply List.map_ext. intros tag.
  unfold withPinned. f_equal. apply Hsame.
Qed.

Section RunRowMore.

Variable DagsterTag_Backfill : string.
Variable DagsterTag_ParentRunId : string.
Variable runsPathWithFilters : list RunFilterToken -> string.

Lemma tagsToShow_ext (run : RunTableRunFragment) (tb : option PinnedTag)
    (all : list PinnedTag) (unpinnedTags unpinnedTags' : list JSON) :
  (∀ key, isPinned unpinnedTags key = isPinned unpinnedTags' key) →
  tagsToShow DagsterTag_Backfill runsPathWithFilters run tb all unpinnedTags
  = tagsToShow DagsterTag_Backfill runsPathWithFilters run tb all unpinnedTags'.
Proof.
  intros Hsame. unfold tagsToShow.
  destruct (match tb with
            | Some tb' =>
                if ptag_pinned tb'
                then (({[ DagsterTag_Backfill ]} : gset string),
                      [withLink tb' (backfillLink DagsterTag_Backfill runsPathWithFilters
                                                  run tb')])
                else (∅, [])
            | None => (∅, [])
            end) as [tagKeys tags].
  rewrite !fold_showStep. do 2 f_equal. apply List.filter_ext.
  intros tag. cbv beta. rewrite Hsame. reflexivity.
Qed.

(** X5. A row depends on the stored unpinned list only through the
    elements it holds: two lists with the same members, in any order and
    with any repetitions, render the same row. *)
Theorem RunRow_same_members (run : RunTableRunFragment) (repo : option RepoMatch)
    (unpinnedTags unpinnedTags' : list JSON) :
  (∀ x : JSON, x ∈ unpinnedTags ↔ x ∈ unpinnedTags') →
  RunRow DagsterTag_Backfill DagsterTag_ParentRunId runsPathWithFilters
         run repo (JArray unpinnedTags)
  = RunRow DagsterTag_Backfill DagsterTag_ParentRunId runsPathWithFilters
           run repo (JArray unpinnedTags').
Proof.
  intros Hmembers. pose proof (isPinned_ext _ _ Hmembers) as Hsame.
  unfold RunRow, useStateWithStorage, unpinnedTagsValidator. simpl.
  rewrite (allTagsWithPinned_ext run _ _ _ Hsame).
  rewrite (tagsToShow_ext run _ _ _ _ Hsame). reflexivity.
Qed.

(** X6. Toggling the pin of a key twice restores every row as it was
    rendered before, though the stored list may come back in another
    order. *)
Theorem RunRow_toggle_twice (run : RunTableRunFragment) (repo : option RepoMatch)
    (tagKey : string) (unpinnedTags : list JSON) :
  RunRow DagsterTag_Backfill DagsterTag_ParentRunId runsPathWithFilters run repo
         (JArray (onToggleTagPin tagKey (Some (onToggleTagPin tagKey (Some unpinnedTags)))))
  = RunRow DagsterTag_Backfill DagsterTag_ParentRunId runsPathWithFilters run repo
           (JArray unpinnedTags).
Proof.
  pose proof (isPinned_ext _ _ (toggle_twice_elem tagKey unpinnedTags)) as Hsame.
  unfold RunRow, useStateWithStorage, unpinnedTagsValidator. simpl.
  rewrite (allTagsWithPinned_ext run _ _ _ Hsame).
  rewrite (tagsToShow_ext run _ _ _ _ Hsame). reflexivity.
Qed.

End RunRowMore.

Lemma RunRow_same_members_witness :
  RunRow Samples.backfillKey Samples.parentRunIdKey Samples.runsPath
         (Samples.backfillRun None) None (JArray [JString "team"; JString "mode"])
  = RunRow Samples.backfillKey Samples.parentRunIdKey Samples.runsPath
           (Samples.backfillRun None) None
           (JArray [JString "mode"; JString "team"; JString "mode"]).
Proof.
  apply (RunRow_same_members Samples.backfillKey Samples.parentRunIdKey Samples.runsPath
           (Samples.backfillRun None) None).
  intros x. rewrite !elem_of_cons, !elem_of_nil. tauto.
Defined.

Section RunRowSummary.

Variable DagsterTag_Backfill : string.
Variable DagsterTag_ParentRunId : string.
Variable runsPathWithFilters : list RunFilterToken -> string.

Lemma targetBackfill_withPinned (unpinnedTags : list JSON) (raw : list PipelineTag) :
  targetBackfill DagsterTag_Backfill (List.map (withPinned unpinnedTags) raw)
  = option_map (withPinned unpinnedTags)
      (List.find (fun tag => String.eqb (tag_key tag) DagsterTag_Backfill) raw).
Proof.
  unfold targetBackfill. induction raw as [|tag rest IH]; simpl; [reflexivity |].
  destruct (String.eqb (tag_key tag) DagsterTag_Backfill); [reflexivity | exact IH].
Qed.

Lemma shown_rest_raw (unpinnedTags : list JSON) (keep : string -> bool)
    (raw : list PipelineTag) :
  List.map asTagType
    (List.filter (fun tag => isPinned unpinnedTags (ptag_key tag) && keep (ptag_key tag))
                 (List.map (withPinned unpinnedTags) raw))
  = List.map (fun tag => mkTagType (tag_key tag) (tag_value tag) (Some true) None)
      (List.filter (fun tag => isPinned unpinnedTags (tag_key tag) && keep (tag_key tag)) raw).
Proof.
  rewrite List.filter_map_swap, List.map_map. simpl.
  apply List.map_ext_in. intros tag Hin.
  apply List.filter_In in Hin as [_ Hkeep].
  apply andb_true_iff in Hkeep as [Hpin _].
  unfold asTagType, withPinned. simpl. fold (isPinned unpinnedTags (tag_key tag)).
  rewrite Hpin. reflexivity.
Qed.

(** The summary in terms of the raw tags and the mode tag: the backfill
    tag with its link, then the pinned tags with another key. *)
Lemma tagsToShow_raw (run : RunTableRunFragment) (isJob : bool) (unpinnedTags : list JSON) :
  let all := allTagsWithPinned run isJob unpinnedTags in
  tagsToShow DagsterTag_Backfill runsPathWithFilters run
             (targetBackfill DagsterTag_Backfill all) all unpinnedTags
  = match List.find (fun tag => String.eqb (tag_key tag) DagsterTag_Backfill)
                    (allTags run isJob) with
    | Some tag =>
        if isPinned unpinnedTags DagsterTag_Backfill
        then [mkTagType DagsterTag_Backfill (tag_value tag) (Some true)
                (Some (backfillLink DagsterTag_Backfill runsPathWithFilters run
                         (mkPinnedTag DagsterTag_Backfill (tag_value tag) true)))]
        else []
    | None => []
    end
    ++ List.map (fun tag => mkTagType (tag_key tag) (tag_value tag) (Some true) None)
         (List.filter
            (fun tag => isPinned unpinnedTags (tag_key tag)
                        && negb (String.eqb (tag_key tag) DagsterTag_Backfill))
            (allTags run isJob)).
Proof.
  cbv zeta. rewrite tagsToShow_closed. unfold allTagsWithPinned.
  rewrite targetBackfill_withPinned.
  set (raw := allTags run isJob).
  assert (Hplain :
    List.map asTagType
      (List.filter (fun tag => isPinned unpinnedTags (ptag_key tag))
                   (List.map (withPinned unpinnedTags) raw))
    = List.map (fun tag => mkTagType (tag_key tag) (tag_value tag) (Some true) None)
        (List.filter (fun tag => isPinned unpinnedTags (tag_key tag)) raw)).
  { etransitivity;
      [| etransitivity; [exact (shown_rest_raw unpinnedTags (fun _ => true) raw) |]].
    - f_equal. apply List.filter_ext. intros tag. symmetry. apply andb_true_r.
    - f_equal. apply List.filter_ext. intros tag. apply andb_true_r. }
  destruct (List.find _ raw) as [tag|] eqn:Hfind; simpl.
  - apply List.find_some in Hfind as [_ Hkey]. apply String.eqb_eq in Hkey.
    fold (isPinned unpinnedTags (tag_key tag)). rewrite Hkey.
    destruct (isPinned unpinnedTags DagsterTag_Backfill) eqn:Hpin.
    + rewrite (shown_rest_raw unpinnedTags
                 (fun key => negb (String.eqb key DagsterTag_Backfill)) raw).
      unfold withLink, withPinned, backfillLink. simpl.
      fold (isPinned unpinnedTags (tag_key tag)). rewrite Hkey, Hpin. reflexivity.
    + rewrite Hplain. simpl. f_equal. apply List.filter_ext. intros other.
      destruct (String.eqb_spec (tag_key other) DagsterTag_Backfill) as [-> | _]; simpl.
      * rewrite Hpin. reflexivity.
      * symmetry. apply andb_true_r.
  - rewrite Hplain. simpl. f_equal. apply List.filter_ext_in. intros other Hin.
    rewrite (List.find_none _ _ Hfind other Hin). simpl. symmetry. apply andb_true_r.
Qed.

(** X7. Unpinning a pinned key removes from the summary exactly the tags
    with that key, the backfill tag included when it is the key, and
    leaves the other summary tags as they were, in the same order. *)
Theorem unpin_removes_key (run : RunTableRunFragment) (isJob : bool)
    (unpinnedTags : list JSON) (tagKey : string) :
  isPinned unpinnedTags tagKey = true →
  let toggled := onToggleTagPin tagKey (Some unpinnedTags) in
  let all := allTagsWithPinned run isJob unpinnedTags in
  let all' := allTagsWithPinned run isJob toggled in
  tagsToShow DagsterTag_Backfill runsPathWithFilters run
             (targetBackfill DagsterTag_Backfill all') all' toggled
  = List.filter (fun tag => negb (String.eqb (tt_key tag) tagKey))
      (tagsToShow DagsterTag_Backfill runsPathWithFilters run
                  (targetBackfill DagsterTag_Backfill all) all unpinnedTags).
Proof.
  intros Hpinned. cbv zeta.
  rewrite (onToggleTagPin_pinned _ _ Hpinned), !tagsToShow_raw.
  rewrite List.filter_app, List.filter_map_swap, filter_filter_and. simpl.
  f_equal.
  - destruct (List.find _ (allTags run isJob)) as [tag|]; [| reflexivity].
    rewrite isPinned_snoc.
    destruct (isPinned unpinnedTags DagsterTag_Backfill); simpl; [| reflexivity].
    destruct (String.eqb DagsterTag_Backfill tagKey); reflexivity.
  - f_equal. apply List.filter_ext. intros tag. rewrite isPinned_snoc.
    destruct (isPinned unpinnedTags (tag_key tag)),
             (String.eqb (tag_key tag) tagKey),
             (String.eqb (tag_key tag) DagsterTag_Backfill); reflexivity.
Qed.

End RunRowSummary.

Lemma unpin_removes_key_witness :
  tagsToShow Samples.backfillKey Samples.runsPath (Samples.backfillRun None)
    (targetBackfill Samples.backfillKey
       (allTagsWithPinned (Samples.backfillRun None) false
          (onToggleTagPin "team" (Some []))))
    (allTagsWithPinned (Samples.backfillRun None) false (onToggleTagPin "team" (Some [])))
    (onToggleTagPin "team" (Some []))
  = [mkTagType "dagster/backfill" "bf42" (Some true)
               (Some "/runs?tag=dagster/backfill=bf42");
     mkTagType "dagster/parent_run_id" "r0" (Some true) None;
     mkTagType "mode" "default" (Some true) None].
Proof.
  etransitivity;
    [exact (unpin_removes_key Samples.backfillKey Samples.runsPath
              (Samples.backfillRun None) false [] "team" eq_refl) |].
  reflexivity.
Defined.

Ltac case_ltb :=
  match goal with
  | |- context [Nat.ltb ?a ?b] => destruct (Nat.ltb_spec a b)
  end.

Lemma forallb_map_comp {A B : Type} (f : B -> bool) (g : A -> B) (l : list A) :
  forallb f (List.map g l) = forallb (fun x => f (g x)) l.
Proof. induction l as [|x rest IH]; simpl; [reflexivity | rewrite IH; reflexivity]. Qed.

Lemma count_partition {A : Type} (P G : A -> bool) (l : list A) :
  (∀ x, G x = true → P x = true) →
  (length (List.filter (fun x => P x && negb (G x)) l)
   + length (List.filter G l)
   + length (List.filter (fun x => negb (P x)) l) = length l)%nat.
Proof.
  intros Himp. induction l as [|x rest IH]; simpl; [reflexivity |].
  pose proof (Himp x) as Hx.
  destruct (P x), (G x); simpl; solve [lia | discriminate (Hx eq_refl)].
Qed.

Lemma filter_In_length {A : Type} (f : A -> bool) (l : list A) (x : A) :
  In x l → f x = true → (1 <= length (List.filter f l))%nat.
Proof.
  intros Hin Hf.
  assert (Hx : In x (List.filter f l)) by (apply List.filter_In; split; assumption).
  destruct (List.filter f l); [destruct Hx | simpl; lia].
Qed.

Section RunRowCounts.

Variable DagsterTag_Backfill : string.
Variable DagsterTag_ParentRunId : string.
Variable runsPathWithFilters : list RunFilterToken -> string.

(** Without a shown backfill tag the summary is the pinned tags. *)
Lemma plain_filter (unpinnedTags : list JSON) (raw : list PipelineTag) :
  List.find (fun tag => String.eqb (tag_key tag) DagsterTag_Backfill) raw = None
  ∨ isPinned unpinnedTags DagsterTag_Backfill = false →
  List.filter (fun tag => isPinned unpinnedTags (tag_key tag)
                          && negb (String.eqb (tag_key tag) DagsterTag_Backfill)) raw
  = List.filter (fun tag => isPinned unpinnedTags (tag_key tag)) raw.
Proof.
  intros Hcase. apply List.filter_ext_in. intros tag Hin.
  destruct (String.eqb_spec (tag_key tag) DagsterTag_Backfill) as [Hkey | _]; simpl.
  - destruct Hcase as [Hnone | Hunpinned].
    + pose proof (List.find_none _ _ Hnone tag Hin) as Hne. simpl in Hne.
      apply String.eqb_neq in Hne. contradiction.
    + rewrite Hkey, Hunpinned. reflexivity.
  - apply andb_true_r.
Qed.

(** X8. Every summary tag is pinned and comes from the full tag list with
    its key and value; a summary tag has a link exactly when its key is the
    backfill key, and only the first summary tag can be such a tag. *)
Theorem summary_invariants (run : RunTableRunFragment) (isJob : bool)
    (unpinnedTags : list JSON) :
  let all := allTagsWithPinned run isJob unpinnedTags in
  let shown := tagsToShow DagsterTag_Backfill runsPathWithFilters run
                          (targetBackfill DagsterTag_Backfill all) all unpinnedTags in
  Forall (fun tag => tt_pinned tag = Some true) shown ∧
  Forall (fun tag => mkPinnedTag (tt_key tag) (tt_value tag) true ∈ all) shown ∧
  Forall (fun tag => tt_link tag ≠ None ↔ tt_key tag = DagsterTag_Backfill) shown ∧
  Forall (fun tag => tt_link tag = None ∧ tt_key tag ≠ DagsterTag_Backfill) (tail shown).
Proof.
  cbv zeta. rewrite tagsToShow_raw. unfold allTagsWithPinned.
  set (raw := allTags run isJob).
  set (rest := List.map _ (List.filter _ raw)).
  assert (Hrest : Forall (fun tag =>
                    tt_pinned tag = Some true ∧
                    mkPinnedTag (tt_key tag) (tt_value tag) true
                      ∈ List.map (withPinned unpinnedTags) raw ∧
                    tt_link tag = None ∧ tt_key tag ≠ DagsterTag_Backfill) rest).
  { subst rest. apply Forall_forall. intros shown Hin.
    apply list_elem_of_In, List.in_map_iff in Hin as [tag [<- Hin]].
    apply List.filter_In in Hin as [Hin Hkeep].
    apply andb_true_iff in Hkeep as [Hpin Hkey].
    apply negb_true_iff, String.eqb_neq in Hkey. simpl.
    repeat split; [| exact Hkey].
    apply list_elem_of_In, List.in_map_iff. exists tag. split; [| exact Hin].
    unfold withPinned. fold (isPinned unpinnedTags (tag_key tag)). rewrite Hpin. reflexivity. }
  assert (Hlinks : Forall (fun tag => tt_link tag ≠ None ↔ tt_key tag = DagsterTag_Backfill)
                          rest).
  { eapply Forall_impl; [exact Hrest |]. intros tag (_ & _ & Hlink & Hkey). simpl.
    rewrite Hlink. split; [intros H; destruct (H eq_refl) | intros H; destruct (Hkey H)]. }
  destruct (List.find _ raw) as [tag|] eqn:Hfind;
    [destruct (isPinned unpinnedTags DagsterTag_Backfill) eqn:Hpin |]; simpl.
  - apply List.find_some in Hfind as [Hin Hkey]. apply String.eqb_eq in Hkey.
    split; [apply Forall_cons; split; [reflexivity |];
            eapply Forall_impl; [exact Hrest | intros ? H; apply H] |].
    split; [apply Forall_cons; split;
            [| eapply Forall_impl; [exact Hrest | intros ? H; apply H]] |].
    { simpl. apply list_elem_of_In, List.in_map_iff. exists tag. split; [| exact Hin].
      unfold withPinned. fold (isPinned unpinnedTags (tag_key tag)).
      rewrite Hkey, Hpin. reflexivity. }
    split; [apply Forall_cons; split; [simpl; split; [reflexivity | discriminate] |
                                       exact Hlinks] |].
    eapply Forall_impl; [exact Hrest | intros ? H; apply H].
  - split; [eapply Forall_impl; [exact Hrest | intros ? H; apply H] |].
    split; [eapply Forall_impl; [exact Hrest | intros ? H; apply H] |].
    split; [exact Hlinks |].
    apply Forall_tail. eapply Forall_impl; [exact Hrest | intros ? H; apply H].
  - split; [eapply Forall_impl; [exact Hrest | intros ? H; apply H] |].
    split; [eapply Forall_impl; [exact Hrest | intros ? H; apply H] |].
    split; [exact Hlinks |].
    apply Forall_tail. eapply Forall_impl; [exact Hrest | intros ? H; apply H].
Qed.

Lemma forallb_pinned (unpinnedTags : list JSON) (raw : list PipelineTag) :
  forallb ptag_pinned (List.map (withPinned unpinnedTags) raw)
  = forallb (fun tag => isPinned unpinnedTags (tag_key tag)) raw.
Proof. exact (forallb_map_comp ptag_pinned (withPinned unpinnedTags) raw). Qed.

Lemma forallb_unpinned (unpinnedTags : list JSON) (raw : list PipelineTag) :
  forallb (fun tag => negb (ptag_pinned tag)) (List.map (withPinned unpinnedTags) raw)
  = forallb (fun tag => negb (isPinned unpinnedTags (tag_key tag))) raw.
Proof.
  exact (forallb_map_comp (fun tag => negb (ptag_pinned tag)) (withPinned unpinnedTags) raw).
Qed.

Lemma count_backfill (unpinnedTags : list JSON) (raw : list PipelineTag) :
  length (List.filter (fun tag => String.eqb (ptag_key tag) DagsterTag_Backfill)
                      (List.map (withPinned unpinnedTags) raw))
  = length (List.filter (fun tag => String.eqb (tag_key tag) DagsterTag_Backfill) raw).
Proof. rewrite List.filter_map_swap, List.length_map. reflexivity. Qed.

Lemma shown_length (run : RunTableRunFragment) (isJob : bool) (unpinnedTags : list JSON) :
  let all := allTagsWithPinned run isJob unpinnedTags in
  length (tagsToShow DagsterTag_Backfill runsPathWithFilters run
                     (targetBackfill DagsterTag_Backfill all) all unpinnedTags)
  = ((match List.find (fun tag => String.eqb (tag_key tag) DagsterTag_Backfill)
                      (allTags run isJob) with
      | Some _ => if isPinned unpinnedTags DagsterTag_Backfill then 1 else 0
      | None => 0
      end)
     + length (List.filter
                 (fun tag => isPinned unpinnedTags (tag_key tag)
                             && negb (String.eqb (tag_key tag) DagsterTag_Backfill))
                 (allTags run isJob)))%nat.
Proof.
  cbv zeta. rewrite tagsToShow_raw, length_app, List.length_map. f_equal.
  destruct (List.find _ (allTags run isJob)); [| reflexivity].
  destruct (isPinned unpinnedTags DagsterTag_Backfill); reflexivity.
Qed.

(** X9. The "View all n tags" button is absent exactly when every tag of
    the full list is pinned and at most one of them has the backfill key;
    otherwise it is shown with the number of tags of the full list. *)
Theorem viewAllButton_shown (run : RunTableRunFragment) (repo : option RepoMatch)
    (stored : JSON) :
  let unpinnedTags := useStateWithStorage unpinnedTagsValidator stored in
  let all := allTagsWithPinned run (isJob repo (run_pipelineName run)) unpinnedTags in
  view_viewAllButton
    (RunRow DagsterTag_Backfill DagsterTag_ParentRunId runsPathWithFilters run repo stored)
  = if forallb ptag_pinned all
       && Nat.leb (length (List.filter
                             (fun tag => String.eqb (ptag_key tag) DagsterTag_Backfill) all)) 1
    then None else Some (length all).
Proof.
  cbv zeta. unfold RunRow. cbn [view_viewAllButton].
  set (unpinnedTags := useStateWithStorage unpinnedTagsValidator stored).
  set (isJ := isJob repo (run_pipelineName run)).
  rewrite shown_length. unfold allTagsWithPinned.
  rewrite forallb_pinned, count_backfill, List.length_map.
  set (raw := allTags run isJ).
  set (P := fun tag => isPinned unpinnedTags (tag_key tag)).
  set (G := fun tag => String.eqb (tag_key tag) DagsterTag_Backfill).
  change (List.filter
            (fun tag => isPinned unpinnedTags (tag_key tag)
                        && negb (String.eqb (tag_key tag) DagsterTag_Backfill)) raw)
    with (List.filter (fun tag => P tag && negb (G tag)) raw).
  pose proof (filter_all_length P raw) as Hall.
  pose proof (List.filter_length (fun tag => P tag && negb (G tag)) raw) as Hsplit.
  destruct (List.find G raw) as [tag|] eqn:Hfind;
    [destruct (isPinned unpinnedTags DagsterTag_Backfill) eqn:Hpin |].
  - apply List.find_some in Hfind as [Hin Hkey].
    pose proof (filter_In_length G raw tag Hin Hkey) as Hone.
    assert (Himp : ∀ x, G x = true → P x = true).
    { intros x Hx. subst G P. simpl in *. apply String.eqb_eq in Hx.
      rewrite Hx. exact Hpin. }
    pose proof (count_partition P G raw Himp) as Hcount.
    destruct (forallb P raw); cbn [andb].
    + destruct Hall as [_ Hall]. specialize (Hall eq_refl).
      destruct (Nat.leb_spec (length (List.filter G raw)) 1); case_ltb;
        try reflexivity; lia.
    + assert (Hsome : length (List.filter (fun x => negb (P x)) raw) ≠ 0%nat)
        by (intros H0; apply Hall in H0; discriminate).
      case_ltb; [reflexivity | lia].
  - apply List.find_some in Hfind as [Hin Hkey].
    assert (Htag : P tag = false).
    { subst G P. simpl in *. apply String.eqb_eq in Hkey. rewrite Hkey. exact Hpin. }
    assert (Hnot : forallb P raw = false).
    { destruct (forallb P raw) eqn:HF; [| reflexivity].
      rewrite List.forallb_forall in HF. rewrite (HF tag Hin) in Htag. discriminate. }
    rewrite Hnot. cbn [andb].
    assert (Hone : (1 <= length (List.filter (fun x => negb (P x && negb (G x))) raw))%nat)
      by (apply (filter_In_length _ raw tag Hin); cbv beta; rewrite Htag; reflexivity).
    case_ltb; [reflexivity | lia].
  - assert (Hnone : length (List.filter G raw) = 0%nat).
    { apply filter_none_length. apply List.forallb_forall. intros x Hx.
      rewrite (List.find_none _ _ Hfind x Hx). reflexivity. }
    rewrite Hnone. change (0 <=? 1)%nat with true. rewrite andb_true_r.
    pose proof (plain_filter unpinnedTags raw (or_introl Hfind)) as Hplain.
    fold P in Hplain. fold G in Hplain.
    change (List.filter (fun tag => P tag && negb (G tag)) raw = List.filter P raw) in Hplain.
    rewrite Hplain in *.
    pose proof (List.filter_length P raw) as HsplitP.
    destruct (forallb P raw).
    + destruct Hall as [_ Hall]. specialize (Hall eq_refl).
      case_ltb; [lia | reflexivity].
    + assert (Hsome : length (List.filter (fun x => negb (P x)) raw) ≠ 0%nat)
        by (intros H0; apply Hall in H0; discriminate).
      case_ltb; [reflexivity | lia].
Qed.

(** X10. The row renders no summary [RunTags] exactly when every tag of
    the full list is unpinned; otherwise it renders the summary tags. *)
Theorem summaryTags_absent (run : RunTableRunFragment) (repo : option RepoMatch)
    (stored : JSON) :
  let unpinnedTags := useStateWithStorage unpinnedTagsValidator stored in
  let all := allTagsWithPinned run (isJob repo (run_pipelineName run)) unpinnedTags in
  view_summaryTags
    (RunRow DagsterTag_Backfill DagsterTag_ParentRunId runsPathWithFilters run repo stored)
  = if forallb (fun tag => negb (ptag_pinned tag)) all
    then None
    else Some (tagsToShow DagsterTag_Backfill runsPathWithFilters run
                          (targetBackfill DagsterTag_Backfill all) all unpinnedTags).
Proof.
  cbv zeta. unfold RunRow. cbn [view_summaryTags].
  set (unpinnedTags := useStateWithStorage unpinnedTagsValidator stored).
  set (isJ := isJob repo (run_pipelineName run)).
  rewrite shown_length. unfold allTagsWithPinned at 3.
  rewrite forallb_unpinned.
  set (raw := allTags run isJ).
  set (P := fun tag => isPinned unpinnedTags (tag_key tag)).
  change (forallb (fun tag => negb (isPinned unpinnedTags (tag_key tag))) raw)
    with (forallb (fun tag => negb (P tag)) raw).
  pose proof (filter_none_length P raw) as Hnone.
  destruct (List.find _ raw) as [tag|] eqn:Hfind;
    [destruct (isPinned unpinnedTags DagsterTag_Backfill) eqn:Hpin |].
  - apply List.find_some in Hfind as [Hin Hkey]. apply String.eqb_eq in Hkey.
    assert (Hnot : forallb (fun tag => negb (P tag)) raw = false).
    { destruct (forallb (fun tag => negb (P tag)) raw) eqn:HF; [| reflexivity].
      rewrite List.forallb_forall in HF. specialize (HF tag Hin).
      subst P. simpl in HF. rewrite Hkey, Hpin in HF. discriminate. }
    rewrite Hnot. reflexivity.
  - rewrite (plain_filter unpinnedTags raw (or_intror Hpin)).
    change (List.filter (fun tag => isPinned unpinnedTags (tag_key tag)) raw)
      with (List.filter P raw).
    cbn [Nat.add].
    destruct (forallb (fun tag => negb (P tag)) raw).
    + destruct Hnone as [_ ->]; reflexivity.
    + destruct (Nat.eqb_spec (length (List.filter P raw)) 0) as [H0 | _]; [| reflexivity].
      apply Hnone in H0. discriminate.
  - rewrite (plain_filter unpinnedTags raw (or_introl Hfind)).
    change (List.filter (fun tag => isPinned unpinnedTags (tag_key tag)) raw)
      with (List.filter P raw).
    cbn [Nat.add].
    destruct (forallb (fun tag => negb (P tag)) raw).
    + destruct Hnone as [_ ->]; reflexivity.
    + destruct (Nat.eqb_spec (length (List.filter P raw)) 0) as [H0 | _]; [| reflexivity].
      apply Hnone in H0. discriminate.
Qed.

End RunRowCounts.

(** ** More on the table body and the selection *)

Lemma rows_of_content {Node : Type} (runs : list RunTableRunFragment)
    (filter : option RunsFilter) (emptyState : option (unit -> Node))
    (checkedIds : gset string) :
  contentRows (content runs filter emptyState checkedIds)
  = List.map (fun run =>
                {| props_run := run;
                   props_canTerminateOrDelete :=
                     run_hasTerminatePermission run || run_hasDeletePermission run;
                   props_checked := bool_decide (run_id run ∈ checkedIds) |}) runs.
Proof.
  destruct runs as [|run runs]; [| reflexivity].
  unfold content. simpl. destruct emptyState; [reflexivity |].
  destruct (anyFilter filter); reflexivity.
Qed.

Lemma header_of_content {Node : Type} (runs : list RunTableRunFragment)
    (filter : option RunsFilter) (emptyState : option (unit -> Node))
    (checkedIds : gset string) :
  contentHeader (content runs filter emptyState checkedIds)
  = if canTerminateOrDeleteAny runs
    then Some {| header_indeterminate :=
                   Nat.ltb 0 (size checkedIds)
                   && negb (Nat.eqb (size checkedIds) (length runs));
                 header_checked := Nat.eqb (size checkedIds) (length runs) |}
    else None.
Proof.
  destruct runs as [|run runs]; [| reflexivity].
  unfold content. simpl. destruct emptyState; [reflexivity |].
  destruct (anyFilter filter); reflexivity.
Qed.

(** X11. The body has one row per run, in the order of the list.  The
    header checkbox is rendered exactly when some row renders a checkbox
    cell; it is never checked and indeterminate at once, and with nothing
    checked it is neither. *)
Theorem header_checkbox_rows {Node : Type} (runs : list RunTableRunFragment)
    (filter : option RunsFilter) (emptyState : option (unit -> Node))
    (checkedIds : gset string) :
  let body := content runs filter emptyState checkedIds in
  List.map props_run (contentRows body) = runs ∧
  (is_Some (contentHeader body)
   ↔ Exists (fun props => is_Some (rowCheckbox props)) (contentRows body)) ∧
  from_option (fun h => header_checked h && header_indeterminate h) false
              (contentHeader body) = false ∧
  from_option (fun h => header_checked h || header_indeterminate h) false
              (contentHeader (content runs filter emptyState ∅)) = false.
Proof.
  cbv zeta. rewrite rows_of_content, !header_of_content.
  split; [rewrite List.map_map; simpl; apply List.map_id |].
  split; [| split].
  - rewrite Exists_exists. unfold canTerminateOrDeleteAny.
    destruct (List.existsb _ runs) eqn:Hany.
    + split; [intros _ | intros _; eexists; reflexivity].
      apply List.existsb_exists in Hany as [run [Hin Hperm]].
      eexists. split.
      * apply list_elem_of_In, List.in_map. exact Hin.
      * unfold rowCheckbox. simpl. rewrite Hperm. eexists; reflexivity.
    + split; [intros [h Hh]; discriminate |].
      intros [props [Hin [checked Hbox]]].
      apply list_elem_of_In, List.in_map_iff in Hin as [run [<- Hin]].
      unfold rowCheckbox in Hbox. simpl in Hbox.
      assert (Hperm : run_hasTerminatePermission run || run_hasDeletePermission run = true)
        by (destruct (run_hasTerminatePermission run || run_hasDeletePermission run);
            [reflexivity | discriminate]).
      assert (Hex : List.existsb
                      (fun run => run_hasTerminatePermission run
                                  || run_hasDeletePermission run) runs = true)
        by (apply List.existsb_exists; exists run; split; assumption).
      rewrite Hex in Hany. discriminate.
  - destruct (canTerminateOrDeleteAny runs); [| reflexivity]. simpl.
    destruct (Nat.eqb (size checkedIds) (length runs)); simpl;
      [apply andb_false_r | reflexivity].
  - destruct (canTerminateOrDeleteAny runs) eqn:Hany; [| reflexivity].
    cbn [from_option header_checked header_indeterminate]. rewrite size_empty.
    destruct runs as [|run runs]; [discriminate Hany | reflexivity].
Qed.

Lemma filter_sublist {A : Type} (f : A -> bool) (l : list A) :
  List.filter f l `sublist_of` l.
Proof.
  induction l as [|x rest IH]; simpl; [constructor |].
  destruct (f x); [apply sublist_skip | apply sublist_cons]; exact IH.
Qed.

(** X12. The runs handed to the bulk actions menu are the runs of the
    checked rows, in list order, each with a checked id.  Nothing checked
    selects no run, every id of the list checked selects the whole list,
    and checked ids that are not ids of the list select nothing. *)
Theorem selectedFragments_rows {Node : Type} (runs : list RunTableRunFragment)
    (filter : option RunsFilter) (emptyState : option (unit -> Node))
    (checkedIds : gset string) :
  let body := content runs filter emptyState checkedIds in
  selectedFragments runs checkedIds
  = List.map props_run (List.filter props_checked (contentRows body)) ∧
  selectedFragments runs checkedIds `sublist_of` runs ∧
  Forall (fun run => run_id run ∈ checkedIds) (selectedFragments runs checkedIds) ∧
  selectedFragments runs ∅ = [] ∧
  selectedFragments runs (list_to_set (allIds runs) ∪ checkedIds) = runs ∧
  selectedFragments runs (checkedIds ∩ list_to_set (allIds runs))
  = selectedFragments runs checkedIds.
Proof.
  cbv zeta. rewrite rows_of_content. unfold selectedFragments.
  split; [rewrite List.filter_map_swap, List.map_map; simpl; symmetry; apply List.map_id |].
  split; [apply filter_sublist |].
  split; [| split; [| split]].
  - apply Forall_forall. intros run Hin.
    apply list_elem_of_In, List.filter_In in Hin as [_ Hin].
    apply bool_decide_eq_true in Hin. exact Hin.
  - transitivity (List.filter (fun _ : RunTableRunFragment => false) runs);
      [| apply List.filter_false].
    apply List.filter_ext. intros run.
    apply bool_decide_eq_false. apply not_elem_of_empty.
  - transitivity (List.filter (fun _ : RunTableRunFragment => true) runs);
      [| apply List.filter_true].
    apply List.filter_ext_in. intros run Hin.
    apply bool_decide_eq_true. apply elem_of_union. left.
    apply elem_of_list_to_set. unfold allIds.
    apply list_elem_of_In, List.in_map. exact Hin.
  - apply List.filter_ext_in. intros run Hin. apply bool_decide_ext.
    rewrite elem_of_intersection, elem_of_list_to_set.
    split; [intros [H _]; exact H | intros H; split; [exact H |]].
    unfold allIds. apply list_elem_of_In, List.in_map. exact Hin.
Qed.

(** ** The dialog of a row *)

(** X13. From its initial state a row stays closed and unhovered as long
    as the mouse has not entered it and its "View all" button has not been
    clicked: the shortcut does nothing on a row that is not hovered. *)
Theorem dialog_needs_hover_or_click (steps : list (RunRowView * RowEvent)) :
  Forall (fun step => snd step ≠ MouseEnter ∧ snd step ≠ ViewAllClick) steps →
  rowAfter initialRowState steps = initialRowState.
Proof.
  unfold rowAfter. induction steps as [|[view event] rest IH]; intros Hsteps;
    [reflexivity |].
  apply Forall_cons in Hsteps as [[Henter Hclick] Hrest]. simpl in Henter, Hclick. simpl.
  destruct event; try contradiction; exact (IH Hrest).
Qed.

Lemma closed_without_tags (st : RowState) (steps : list (RunRowView * RowEvent)) :
  Forall (fun step => view_viewAllButton (fst step) = None ∧ view_dialogTags (fst step) = [])
         steps →
  showRunTags st = false →
  showRunTags (rowAfter st steps) = false.
Proof.
  unfold rowAfter. revert st. induction steps as [|[view event] rest IH];
    intros st Hsteps Hclosed; [exact Hclosed |].
  apply Forall_cons in Hsteps as [[Hbutton Htags] Hrest]. simpl in Hbutton, Htags. simpl.
  apply IH; [exact Hrest |].
  destruct event; simpl; try exact Hclosed; try reflexivity.
  - rewrite Hbutton. exact Hclosed.
  - rewrite Htags. simpl. rewrite andb_false_r. exact Hclosed.
Qed.

Section RunRowDialog.

Variable DagsterTag_Backfill : string.
Variable DagsterTag_ParentRunId : string.
Variable runsPathWithFilters : list RunFilterToken -> string.

(** X14. A row whose full tag list is empty (a job in mode 'default'
    whose run has no tag) never opens its dialog: it renders no "View all"
    button and mounts no shortcut, under every stored unpinned list and
    every sequence of events. *)
Theorem dialog_closed_without_tags (run : RunTableRunFragment) (repo : option RepoMatch)
    (steps : list (JSON * RowEvent)) :
  run_tags run = [] →
  isJob repo (run_pipelineName run) = true →
  run_mode run = "default" →
  showRunTags
    (rowAfter initialRowState
       (List.map (fun step =>
                    (RunRow DagsterTag_Backfill DagsterTag_ParentRunId runsPathWithFilters
                            run repo (fst step), snd step)) steps))
  = false.
Proof.
  intros Htags Hjob Hmode. apply closed_without_tags; [| reflexivity].
  apply Forall_forall. intros step Hin.
  apply list_elem_of_In, List.in_map_iff in Hin as [[stored event] [<- _]].
  unfold RunRow, allTagsWithPinned, allTags. simpl.
  rewrite Hjob, Hmode, Htags. simpl. split; reflexivity.
Qed.

End RunRowDialog.

Lemma dialog_needs_hover_or_click_witness :
  let view := RunRow Samples.backfillKey Samples.parentRunIdKey Samples.runsPath
                     (Samples.backfillRun None) None JNull in
  rowAfter initialRowState [(view, ShortcutT); (view, MouseLeave); (view, DialogClose)]
  = initialRowState.
Proof.
  cbv zeta. apply dialog_needs_hover_or_click.
  repeat (apply Forall_cons; split; [split; discriminate |]). apply Forall_nil_2.
Defined.

Lemma dialog_closed_without_tags_witness :
  let run := mkRun "r9" "default" "etl" false false None [] in
  showRunTags
    (rowAfter initialRowState
       (List.map (fun step =>
                    (RunRow Samples.backfillKey Samples.parentRunIdKey Samples.runsPath
                            run (Some Samples.etlRepo) (fst step), snd step))
                 [(JNull, MouseEnter); (JArray [JString "team"], ShortcutT);
                  (JNull, ViewAllClick)]))
  = false.
Proof.
  cbv zeta.
  apply (dialog_closed_without_tags Samples.backfillKey Samples.parentRunIdKey
           Samples.runsPath (mkRun "r9" "default" "etl" false false None [])
           (Some Samples.etlRepo)); reflexivity.
Defined.

(** ** Rows over one store *)

(** X15. Two rows rendered one after the other on one store, for runs
    whose tag arrays may be one and the same array: both runs read
    afterwards as before, the arrays the first render returned still hold
    its full list and its summary after the second render, and the two
    renders return different arrays. *)
Theorem render_rows_independent (DagsterTag_Backfill : string)
    (runsPathWithFilters : list RunFilterToken -> string)
    (run1 run2 : RunObject) (isJob1 isJob2 : bool)
    (unpinnedTags1 unpinnedTags2 : list JSON) (h : Heap) :
  (obj_tags run1 < length (rawArrays h))%nat →
  (obj_tags run2 < length (rawArrays h))%nat →
  let first := render_st DagsterTag_Backfill runsPathWithFilters run1 isJob1
                         unpinnedTags1 h in
  let second := render_st DagsterTag_Backfill runsPathWithFilters run2 isJob2
                          unpinnedTags2 first.2 in
  let all1 := allTagsWithPinned (deref h run1) isJob1 unpinnedTags1 in
  let all2 := allTagsWithPinned (deref h run2) isJob2 unpinnedTags2 in
  deref second.2 run1 = deref h run1 ∧
  deref second.2 run2 = deref h run2 ∧
  readArray first.1.1 (pinnedArrays second.2) = all1 ∧
  readArray first.1.2 (shownArrays second.2)
  = tagsToShow DagsterTag_Backfill runsPathWithFilters (deref h run1)
               (targetBackfill DagsterTag_Backfill all1) all1 unpinnedTags1 ∧
  readArray second.1.1 (pinnedArrays second.2) = all2 ∧
  readArray second.1.2 (shownArrays second.2)
  = tagsToShow DagsterTag_Backfill runsPathWithFilters (deref h run2)
               (targetBackfill DagsterTag_Backfill all2) all2 unpinnedTags2 ∧
  first.1.1 ≠ second.1.1 ∧
  first.1.2 ≠ second.1.2.
Proof.
  intros Hlive1 Hlive2. cbv zeta.
  rewrite (render_st_spec DagsterTag_Backfill runsPathWithFilters run1 isJob1
             unpinnedTags1 h). cbn [fst snd].
  set (h1 := {| rawArrays := rawArrays h ++ _ |}).
  assert (Hrun2 : deref h1 run2 = deref h run2) by
    (apply (deref_extended run2 h h1 _ eq_refl Hlive2)).
  rewrite (render_st_spec DagsterTag_Backfill runsPathWithFilters run2 isJob2
             unpinnedTags2 h1). cbn [fst snd]. rewrite Hrun2.
  subst h1. cbn [rawArrays pinnedArrays shownArrays].
  split; [eapply deref_extended;
          [cbn [rawArrays]; rewrite <- app_assoc; reflexivity | exact Hlive1] |].
  split; [eapply deref_extended;
          [cbn [rawArrays]; rewrite <- app_assoc; reflexivity | exact Hlive2] |].
  split; [rewrite readArray_old by (rewrite length_app; simpl; lia);
          apply readArray_new |].
  split; [rewrite readArray_old by (rewrite length_app; simpl; lia);
          apply readArray_new |].
  split; [apply readArray_new |].
  split; [apply readArray_new |].
  rewrite !length_app. simpl. split; lia.
Qed.

Lemma render_rows_independent_witness :
  let second :=
    render_st Samples.backfillKey Samples.runsPath Samples.storedRun false [JString "team"]
      (render_st Samples.backfillKey Samples.runsPath Samples.storedRun true []
                 Samples.storedHeap).2 in
  deref second.2 Samples.storedRun = deref Samples.storedHeap Samples.storedRun.
Proof.
  cbv zeta.
  assert (Hlive : (obj_tags Samples.storedRun < length (rawArrays Samples.storedHeap))%nat)
    by (simpl; lia).
  apply (render_rows_independent Samples.backfillKey Samples.runsPath
           Samples.storedRun Samples.storedRun true false [] [JString "team"]
           Samples.storedHeap Hlive Hlive).
Defined.

(** ** A toggle and the summary *)

Lemma isPinned_toggle (arr : list JSON) (tagKey key : string) :
  isPinned (onToggleTagPin tagKey (Some arr)) key
  = if String.eqb key tagKey then negb (isPinned arr tagKey) else isPinned arr key.
Proof.
  destruct (String.eqb_spec key tagKey) as [-> | Hne].
  - apply onToggleTagPin_flips.
  - apply String.eqb_neq in Hne.
    destruct (isPinned arr tagKey) eqn:E.
    + rewrite (onToggleTagPin_pinned _ _ E), isPinned_snoc, Hne. apply andb_true_r.
    + rewrite (onToggleTagPin_unpinned _ _ E), isPinned_filter_strict, Hne.
      apply orb_false_r.
Qed.

(** X16. A toggle of one key, in either direction, changes the summary of
    a row only in the tags with that key: the summary tags with another
    key are the same before and after, in the same order. *)
Theorem summary_toggle_frame (DagsterTag_Backfill : string)
    (runsPathWithFilters : list RunFilterToken -> string)
    (run : RunTableRunFragment) (isJob : bool)
    (unpinnedTags : list JSON) (tagKey : string) :
  let toggled := onToggleTagPin tagKey (Some unpinnedTags) in
  let all := allTagsWithPinned run isJob unpinnedTags in
  let all' := allTagsWithPinned run isJob toggled in
  List.filter (fun tag => negb (String.eqb (tt_key tag) tagKey))
    (tagsToShow DagsterTag_Backfill runsPathWithFilters run
                (targetBackfill DagsterTag_Backfill all') all' toggled)
  = List.filter (fun tag => negb (String.eqb (tt_key tag) tagKey))
      (tagsToShow DagsterTag_Backfill runsPathWithFilters run
                  (targetBackfill DagsterTag_Backfill all) all unpinnedTags).
Proof.
  cbv zeta. rewrite !tagsToShow_raw.
  rewrite !List.filter_app, !List.filter_map_swap, !filter_filter_and. simpl.
  f_equal.
  - destruct (List.find _ (allTags run isJob)) as [tag|]; [| reflexivity].
    rewrite isPinned_toggle.
    destruct (String.eqb_spec DagsterTag_Backfill tagKey) as [Heq | Hne].
    + destruct (negb (isPinned unpinnedTags tagKey)),
               (isPinned unpinnedTags DagsterTag_Backfill); simpl;
        rewrite ?Heq, ?String.eqb_refl; reflexivity.
    + reflexivity.
  - f_equal. apply List.filter_ext. intros tag. rewrite isPinned_toggle.
    destruct (String.eqb (tag_key tag) tagKey); [| reflexivity].
    rewrite !andb_false_r. reflexivity.
Qed.

(** ** The selection *)

Lemma size_list_to_set_distinct (ids : list string) :
  size (list_to_set ids : gset string) = length (remove_dups ids).
Proof.
  rewrite <- (size_list_to_set (C := gset string) (remove_dups ids))
    by apply NoDup_remove_dups.
  f_equal. apply set_eq. intros id.
  rewrite !elem_of_list_to_set, elem_of_remove_dups. reflexivity.
Qed.

(** C8. [toggleAll(true)] from the header checkbox checks every id of the
    list and no other: every row is then checked, and the checked set has
    as many members as the list has distinct ids, which is the length of
    the list for runs with pairwise distinct ids (rows are keyed by
    [run.id]); the header checkbox then shows checked.  [toggleAll(false)],
    from the header checkbox or from [clearSelection], leaves the checked
    set empty and every row unchecked. *)
Theorem onToggleAll_size {Node : Type} (runs : list RunTableRunFragment)
    (filter : option RunsFilter) (emptyState : option (unit -> Node))
    (checkedIds : gset string) :
  let checkedAll := headerCheckboxChange runs true checkedIds in
  let cleared := headerCheckboxChange runs false checkedIds in
  (NoDup (allIds runs) → size checkedAll = length runs) ∧
  size checkedAll = length (remove_dups (allIds runs)) ∧
  Forall (fun run => run_id run ∈ checkedAll) runs ∧
  (∀ id : string, id ∈ checkedAll ↔ id ∈ allIds runs) ∧
  Forall (fun props => props_checked props = true)
         (contentRows (content runs filter emptyState checkedAll)) ∧
  (NoDup (allIds runs) →
   contentHeader (content runs filter emptyState checkedAll)
   = if canTerminateOrDeleteAny runs
     then Some {| header_indeterminate := false; header_checked := true |}
     else None) ∧
  cleared = ∅ ∧
  size cleared = 0%nat ∧
  clearSelection runs checkedIds = ∅ ∧
  Forall (fun props => props_checked props = false)
         (contentRows (content runs filter emptyState cleared)).
Proof.
  cbv zeta. unfold headerCheckboxChange, clearSelection, onToggleAll.
  assert (Hsize : NoDup (allIds runs) →
                  size (list_to_set (allIds runs) : gset string) = length runs).
  { intros Hdistinct. rewrite size_list_to_set by exact Hdistinct.
    unfold allIds. apply List.length_map. }
  split; [exact Hsize |].
  split; [apply size_list_to_set_distinct |].
  split; [| split; [intros id; apply elem_of_list_to_set |]].
  { apply Forall_forall. intros run Hin.
    apply elem_of_list_to_set. unfold allIds. apply (list_elem_of_fmap_2 run_id). exact Hin. }
  split; [| split; [| split; [reflexivity | split; [apply size_empty |
                                                    split; [reflexivity |]]]]].
  - rewrite rows_of_content. apply Forall_forall. intros props Hin.
    apply list_elem_of_In, List.in_map_iff in Hin as [run [<- Hin]]. simpl.
    apply bool_decide_eq_true, elem_of_list_to_set. unfold allIds.
    apply list_elem_of_In, List.in_map. exact Hin.
  - intros Hdistinct. rewrite header_of_content, (Hsize Hdistinct), Nat.eqb_refl.
    rewrite andb_false_r. reflexivity.
  - rewrite rows_of_content. apply Forall_forall. intros props Hin.
    apply list_elem_of_In, List.in_map_iff in Hin as [run [<- Hin]]. simpl.
    apply bool_decide_eq_false, not_elem_of_empty.
Qed.

Lemma onToggleAll_size_witness :
  NoDup (allIds [Samples.plainRun "a"; Samples.plainRun "b"]) ∧
  size (headerCheckboxChange [Samples.plainRun "a"; Samples.plainRun "b"] true {[ "zz" ]})
  = 2%nat.
Proof.
  assert (Hdistinct : NoDup (allIds [Samples.plainRun "a"; Samples.plainRun "b"])).
  { simpl. apply NoDup_cons. split; [| apply NoDup_singleton].
    rewrite list_elem_of_singleton. discriminate. }
  split; [exact Hdistinct |].
  destruct (onToggleAll_size (Node := unit) [Samples.plainRun "a"; Samples.plainRun "b"]
              None None {[ "zz" ]}) as [Hsize _].
  exact (Hsize Hdistinct).
Defined.

(** ** The summary of a row, from the raw tags *)

Lemma find_first_key (key : string) (before : list PipelineTag) (tag : PipelineTag)
    (after : list PipelineTag) :
  Forall (fun other => tag_key other ≠ key) before →
  tag_key tag = key →
  List.find (fun other => String.eqb (tag_key other) key) (before ++ tag :: after)
  = Some tag.
Proof.
  intros Hbefore Hkey. induction before as [|other rest IH]; simpl.
  - rewrite Hkey, String.eqb_refl. reflexivity.
  - apply Forall_cons in Hbefore as [Hother Hrest].
    apply String.eqb_neq in Hother. rewrite Hother. exact (IH Hrest).
Qed.

Lemma find_no_key (key : string) (raw : list PipelineTag) :
  Forall (fun other => tag_key other ≠ key) raw →
  List.find (fun other => String.eqb (tag_key other) key) raw = None.
Proof.
  intros Hnone. induction raw as [|other rest IH]; simpl; [reflexivity |].
  apply Forall_cons in Hnone as [Hother Hrest].
  apply String.eqb_neq in Hother. rewrite Hother. exact (IH Hrest).
Qed.

(** C1 as stated fails when the full tag list has a second tag with the
    backfill key: it is another tag, its key is not unpinned and the
    dialog lists it, yet the summary leaves it out. *)
Lemma tagsToShow_every_other_counterexample :
  let run := mkRun "r1" "default" "etl" false false None
                   [mkTag "dagster/backfill" "first"; mkTag "team" "data";
                    mkTag "dagster/backfill" "second"] in
  let view := RunRow "dagster/backfill" "dagster/parent_run_id" Samples.runsPath
                     run (Some Samples.etlRepo) (JArray []) in
  view_dialogTags view
  = [mkTagType "dagster/backfill" "first" (Some true) None;
     mkTagType "team" "data" (Some true) None;
     mkTagType "dagster/backfill" "second" (Some true) None] ∧
  (JString "dagster/backfill" ∉ unpinnedTagsValidator (JArray [])) ∧
  view_summaryTags view
  = Some [mkTagType "dagster/backfill" "first" (Some true)
                    (Some "/runs?tag=dagster/backfill=first");
          mkTagType "team" "data" (Some true) None] ∧
  ¬ (∃ shown, view_summaryTags view = Some shown ∧
              ∃ tag, tag ∈ shown ∧ tt_key tag = "dagster/backfill" ∧ tt_value tag = "second").
Proof.
  cbv zeta.
  split; [vm_compute; reflexivity |].
  split; [apply not_elem_of_nil |].
  assert (Hsummary :
    view_summaryTags
      (RunRow "dagster/backfill" "dagster/parent_run_id" Samples.runsPath
         (mkRun "r1" "default" "etl" false false None
                [mkTag "dagster/backfill" "first"; mkTag "team" "data";
                 mkTag "dagster/backfill" "second"])
         (Some Samples.etlRepo) (JArray []))
    = Some [mkTagType "dagster/backfill" "first" (Some true)
                      (Some "/runs?tag=dagster/backfill=first");
            mkTagType "team" "data" (Some true) None])
    by (vm_compute; reflexivity).
  split; [exact Hsummary |].
  intros (shown & Hshown & tag & Hin & Hkey & Hvalue).
  rewrite Hsummary in Hshown. inversion Hshown; subst shown.
  apply elem_of_cons in Hin as [-> | Hin]; [discriminate Hvalue |].
  apply list_elem_of_singleton in Hin as ->. discriminate Hkey.
Qed.

Section RunRowSummaryRaw.

Variable DagsterTag_Backfill : string.
Variable DagsterTag_ParentRunId : string.
Variable runsPathWithFilters : list RunFilterToken -> string.

(** C1, amended. The full tag list is the raw tags and then the mode tag
    when it is added.  When that list has a tag with the backfill key and
    the backfill key is not in the unpinned list, the summary is the first
    tag with the backfill key, with its link, and after it every tag of
    the full list whose key is neither in the unpinned list nor the
    backfill key, in the order of the full list.  When no tag has the
    backfill key, or the backfill key is unpinned, the summary is every
    tag of the full list whose key is not in the unpinned list, in order.
    No summary tag has a key of the unpinned list; the dialog receives the
    whole full tag list with the pin flags, unpinned tags included. *)
Theorem tagsToShow_summary (run : RunTableRunFragment) (repo : option RepoMatch)
    (stored : JSON) :
  let unpinnedTags := useStateWithStorage unpinnedTagsValidator stored in
  let isJ := isJob repo (run_pipelineName run) in
  let raw := allTags run isJ in
  let all := allTagsWithPinned run isJ unpinnedTags in
  let shown := tagsToShow DagsterTag_Backfill runsPathWithFilters run
                          (targetBackfill DagsterTag_Backfill all) all unpinnedTags in
  let view := RunRow DagsterTag_Backfill DagsterTag_ParentRunId runsPathWithFilters
                     run repo stored in
  raw = run_tags run
        ++ (if addsModeTag isJ (run_mode run) then [mkTag "mode" (run_mode run)] else []) ∧
  (∀ before tag after,
     raw = before ++ tag :: after →
     Forall (fun other => tag_key other ≠ DagsterTag_Backfill) before →
     tag_key tag = DagsterTag_Backfill →
     JString DagsterTag_Backfill ∉ unpinnedTags →
     shown
     = mkTagType DagsterTag_Backfill (tag_value tag) (Some true)
         (Some (if assetSelectionLength run
                then "/overview/backfills/" +:+ tag_value tag
                else runsPathWithFilters
                       [mkToken "tag" (DagsterTag_Backfill +:+ "=" +:+ tag_value tag)]))
       :: List.map (fun other => mkTagType (tag_key other) (tag_value other) (Some true) None)
            (List.filter
               (fun other => isPinned unpinnedTags (tag_key other)
                             && negb (String.eqb (tag_key other) DagsterTag_Backfill))
               raw)) ∧
  ((Forall (fun other => tag_key other ≠ DagsterTag_Backfill) raw
    ∨ JString DagsterTag_Backfill ∈ unpinnedTags) →
   shown
   = List.map (fun other => mkTagType (tag_key other) (tag_value other) (Some true) None)
       (List.filter (fun other => isPinned unpinnedTags (tag_key other)) raw)) ∧
  (∀ key : string, isPinned unpinnedTags key = true ↔ JString key ∉ unpinnedTags) ∧
  Forall (fun tag => JString (tt_key tag) ∉ unpinnedTags) shown ∧
  view_summaryTags view = (if negb (Nat.eqb (length shown) 0) then Some shown else None) ∧
  view_dialogTags view
  = List.map (fun tag => mkTagType (tag_key tag) (tag_value tag)
                                   (Some (isPinned unpinnedTags (tag_key tag))) None) raw ∧
  Forall (fun tag => JString (tag_key tag) ∈ unpinnedTags →
                     mkTagType (tag_key tag) (tag_value tag) (Some false) None
                     ∈ view_dialogTags view) raw.
Proof.
  cbv zeta.
  set (unpinnedTags := useStateWithStorage unpinnedTagsValidator stored).
  set (isJ := isJob repo (run_pipelineName run)).
  assert (Hdialog :
    view_dialogTags
      (RunRow DagsterTag_Backfill DagsterTag_ParentRunId runsPathWithFilters run repo stored)
    = List.map (fun tag => mkTagType (tag_key tag) (tag_value tag)
                             (Some (isPinned unpinnedTags (tag_key tag))) None)
               (allTags run isJ)).
  { unfold RunRow. cbn [view_dialogTags]. fold unpinnedTags. fold isJ.
    unfold allTagsWithPinned. rewrite List.map_map. reflexivity. }
  split; [unfold allTags; destruct (addsModeTag isJ (run_mode run));
          [reflexivity | symmetry; apply app_nil_r] |].
  split; [| split; [| split; [intros key; apply isPinned_spec |
                              split; [| split; [reflexivity | split; [exact Hdialog |]]]]]].
  - intros before tag after Hraw Hbefore Hkey Hpinned.
    rewrite tagsToShow_raw, Hraw, (find_first_key _ _ _ _ Hbefore Hkey).
    apply isPinned_spec in Hpinned. rewrite Hpinned. reflexivity.
  - intros Hcase. rewrite tagsToShow_raw.
    destruct Hcase as [Hnone | Hunpinned].
    + rewrite (find_no_key _ _ Hnone). simpl.
      rewrite (plain_filter DagsterTag_Backfill unpinnedTags (allTags run isJ)
                 (or_introl (find_no_key _ _ Hnone))). reflexivity.
    + apply isPinned_false in Hunpinned. rewrite Hunpinned.
      rewrite (plain_filter DagsterTag_Backfill unpinnedTags (allTags run isJ)
                 (or_intror Hunpinned)).
      destruct (List.find _ (allTags run isJ)); reflexivity.
  - rewrite tagsToShow_closed.
    set (all := allTagsWithPinned run isJ unpinnedTags).
    destruct (targetBackfill DagsterTag_Backfill all) as [tb|] eqn:Htb;
      [destruct (ptag_pinned tb) eqn:Hpin |].
    + apply Forall_cons. split.
      * simpl. apply isPinned_spec.
        apply List.find_some in Htb as [Hin _].
        rewrite <- (allTagsWithPinned_pinned _ _ _ _ Hin). exact Hpin.
      * apply shown_filter_pinned. intros tag H.
        apply andb_true_iff in H as [H _]. exact H.
    + apply shown_filter_pinned. intros tag H. exact H.
    + apply shown_filter_pinned. intros tag H. exact H.
  - apply Forall_forall. intros tag Hin Hunpinned. rewrite Hdialog.
    apply isPinned_false in Hunpinned.
    apply list_elem_of_In, List.in_map_iff. exists tag.
    split; [rewrite Hunpinned; reflexivity | apply list_elem_of_In; exact Hin].
Qed.

End RunRowSummaryRaw.

Lemma tagsToShow_summary_witness :
  let all := allTagsWithPinned (Samples.backfillRun None) true [JString "team"] in
  tagsToShow Samples.backfillKey Samples.runsPath (Samples.backfillRun None)
             (targetBackfill Samples.backfillKey all) all [JString "team"]
  = [mkTagType "dagster/backfill" "bf42" (Some true)
               (Some "/runs?tag=dagster/backfill=bf42");
     mkTagType "dagster/parent_run_id" "r0" (Some true) None].
Proof.
  cbv zeta.
  destruct (tagsToShow_summary Samples.backfillKey Samples.parentRunIdKey Samples.runsPath
              (Samples.backfillRun None) (Some Samples.etlRepo) (JArray [JString "team"]))
    as (_ & Hfirst & _).
  etransitivity.
  - apply (Hfirst [mkTag "team" "data"] (mkTag Samples.backfillKey "bf42")
                  [mkTag Samples.parentRunIdKey "r0"]).
    + reflexivity.
    + apply Forall_cons. split; [discriminate | apply Forall_nil_2].
    + reflexivity.
    + intros Hin. apply list_elem_of_singleton in Hin. discriminate Hin.
  - reflexivity.
Defined.
